(** * yandex-downloader: a shallow embedding of [app.py]

    The Flask application proxies two calls of the Yandex.Disk public API
    and renders the answers.  This development embeds the three request
    handlers ([index], [files], [download]) and the two helpers
    ([get_public_resources], [get_download_href]) and proves the
    properties the specification states about them.

    Python values are embedded as the JSON values the code manipulates,
    exceptions as an explicit result type, and the effects of a handler
    (outbound HTTP calls, flashed messages, console output, the local
    variable [response] of the helpers) as a state threaded through a
    small state-and-exception monad. *)

From Stdlib Require Import ZArith String List Bool Lia.
From Stdlib Require Import Floats.SpecFloat.
From stdpp Require Import base list strings.

Set Warnings "-register-all".

Local Open Scope string_scope.
Local Open Scope Z_scope.

(** ** Python values *)

(** The values [response.json()] can return: [None], [bool], [int],
    [float], [str], [list] and [dict].  A [dict] is kept as the list of
    its items in insertion order, its keys distinct; [dict_get] reads the
    first binding of a key.  [JNull] is also Python's [None] wherever the
    code produces one ([request.args.get] on a missing argument, the
    helpers' [return None]). *)
Inductive json : Type :=
| JNull
| JBool (b : bool)
| JInt (n : Z)
| JFloat (f : spec_float)
| JStr (s : string)
| JArr (elems : list json)
| JObj (fields : list (string * json)).

(** Python exceptions, by class.  [RequestException] stands for
    [requests.RequestException] and all its subclasses ([ConnectionError],
    [Timeout], [HTTPError], [MissingSchema], ...), named by [cls]. *)
Inductive exn : Type :=
| RequestException (cls msg : string)
| AttributeError (type_name attr : string)
| TypeError (msg : string)
| ValueError (msg : string)
| UnboundLocalError (variable : string).

Inductive result (A : Type) : Type :=
| Ok (value : A)
| Raise (e : exn).
Arguments Ok {A} value.
Arguments Raise {A} e.

Definition result_bind {A B : Type} (c : result A) (k : A → result B) : result B :=
  match c with
  | Ok a => k a
  | Raise e => Raise e
  end.

Notation "'let?' x ':=' c 'in' k" := (result_bind c (fun x => k))
  (at level 10, x name, c at level 100, k at level 200).

(** [isinstance(e, requests.RequestException)], the test of the [except]
    clauses. *)
Definition is_RequestException (e : exn) : bool :=
  match e with
  | RequestException _ _ => true
  | _ => false
  end.

(** [type(v).__name__] *)
Definition type_name (v : json) : string :=
  match v with
  | JNull => "NoneType"
  | JBool _ => "bool"
  | JInt _ => "int"
  | JFloat _ => "float"
  | JStr _ => "str"
  | JArr _ => "list"
  | JObj _ => "dict"
  end.

(** [bool(v)]: the truth value tested by [if not v]. *)
Definition py_truthy (v : json) : bool :=
  match v with
  | JNull => false
  | JBool b => b
  | JInt n => negb (n =? 0)
  | JFloat (S754_zero _) => false
  | JFloat _ => true
  | JStr "" => false
  | JStr _ => true
  | JArr [] => false
  | JArr _ => true
  | JObj [] => false
  | JObj _ => true
  end.

(** [v == s] for a string literal [s]: only an equal [str] compares
    equal; no other value is equal to a string. *)
Definition py_eq_str (v : json) (s : string) : bool :=
  match v with
  | JStr t => String.eqb t s
  | _ => false
  end.

(** [v in types] for a list of string literals. *)
Definition py_in (v : json) (types : list string) : bool :=
  existsb (py_eq_str v) types.

Fixpoint dict_get (fields : list (string * json)) (key : string) : option json :=
  match fields with
  | [] => None
  | (k, v) :: rest => if String.eqb k key then Some v else dict_get rest key
  end.

(** [obj.get(key, default)].  Only [dict] has the method; on every other
    value the attribute lookup raises [AttributeError]. *)
Definition py_get (obj : json) (key : string) (default : json) : result json :=
  match obj with
  | JObj fields =>
      Ok (match dict_get fields key with Some v => v | None => default end)
  | _ => Raise (AttributeError (type_name obj) "get")
  end.

(** [for item in v]: a list yields its elements, a string its characters
    (as one-character strings), a dict its keys; nothing else is
    iterable. *)
Definition py_iter (v : json) : result (list json) :=
  match v with
  | JArr elems => Ok elems
  | JStr s => Ok (map (fun c => JStr (String c EmptyString)) (list_ascii_of_string s))
  | JObj fields => Ok (map (fun kv => JStr (fst kv)) fields)
  | _ => Raise (TypeError (type_name v ++ " object is not iterable"))
  end.

(** ** The filter stage of [files] (lines 101-111) *)

Definition doc_types : list string :=
  ["doc"; "docx"; "pdf"; "txt"; "xls"; "xlsx"; "ppt"; "pptx"].

Definition img_types : list string :=
  ["jpg"; "jpeg"; "png"; "gif"; "bmp"].

(** [item.get('type') == 'dir'] *)
Definition cond_folder (item : json) : result bool :=
  let? t := py_get item "type" JNull in
  Ok (py_eq_str t "dir").

(** [item.get('type') == 'file' and
     item.get('file', {}).get('extension') in types]; [and] evaluates
    its right operand only when the left one holds. *)
Definition cond_file_of (types : list string) (item : json) : result bool :=
  let? t := py_get item "type" JNull in
  if py_eq_str t "file" then
    let? file := py_get item "file" (JObj []) in
    let? extension := py_get file "extension" JNull in
    Ok (py_in extension types)
  else Ok false.

(** [[item for item in items if cond(item)]] over the elements already
    produced by the iterator, left to right; the first exception ends
    the comprehension. *)
Fixpoint comprehension (cond : json → result bool) (items : list json)
  : result (list json) :=
  match items with
  | [] => Ok []
  | item :: rest =>
      let? keep := cond item in
      let? kept := comprehension cond rest in
      Ok (if keep then item :: kept else kept)
  end.

Definition list_comp (cond : json → result bool) (items : json) : result json :=
  let? elems := py_iter items in
  let? kept := comprehension cond elems in
  Ok (JArr kept).

(** The [if]/[elif] chain on [filter_type]; with no branch taken [items]
    stays what it was. *)
Definition apply_filter (filter_type : string) (items : json) : result json :=
  if String.eqb filter_type "folder" then
    list_comp cond_folder items
  else if String.eqb filter_type "document" then
    list_comp (cond_file_of doc_types) items
  else if String.eqb filter_type "image" then
    list_comp (cond_file_of img_types) items
  else Ok items.

(** ** The outside world and the effects of a handler *)

(** One outbound [requests.get(url, params=params)]. *)
Record http_request : Type := {
  req_url : json;
  req_params : list (string * json)
}.

(** What the code reads of a [requests.Response]: [status_code], [text],
    [content], and the outcome of [json()], which returns the decoded body
    or raises on a body that is not JSON. *)
Record response : Type := {
  status_code : Z;
  text : string;
  content : list Byte.byte;
  json_body : result json
}.

(** The remote side: what [requests.get] returns or raises for a call. *)
Definition network : Type := http_request → result response.

(** [Response.raise_for_status]: raises [HTTPError] exactly for the
    client-error and server-error ranges. *)
Definition raise_for_status (r : response) : result unit :=
  if (400 <=? status_code r) && (status_code r <? 500) then
    Raise (RequestException "HTTPError" "Client Error")
  else if (500 <=? status_code r) && (status_code r <? 600) then
    Raise (RequestException "HTTPError" "Server Error")
  else Ok tt.

(** [str(e)] *)
Definition exn_str (e : exn) : string :=
  match e with
  | RequestException _ msg => msg
  | AttributeError t a => "'" ++ t ++ "' object has no attribute '" ++ a ++ "'"
  | TypeError msg => msg
  | ValueError msg => msg
  | UnboundLocalError v =>
      "cannot access local variable '" ++ v ++ "' where it is not associated with a value"
  end.

(** The lines the helpers [print]. *)
Inductive log_line : Type :=
| LogResourcesError (e : exn)
| LogDownloadHrefError (e : exn)
| LogServerAnswer (body : string)
| LogHrefMissing (data : json).

(** The effects of one request: the outbound calls made so far, the
    messages flashed (message, category), the console, and the slot of
    the local variable [response] of the helper being run ([None] while
    the name is unbound). *)
Record state : Type := {
  calls : list http_request;
  flashes : list (string * string);
  console : list log_line;
  local_response : option response
}.

Definition add_call (c : http_request) (s : state) : state :=
  {| calls := calls s ++ [c]; flashes := flashes s;
     console := console s; local_response := local_response s |}.

Definition add_flash (f : string * string) (s : state) : state :=
  {| calls := calls s; flashes := flashes s ++ [f];
     console := console s; local_response := local_response s |}.

Definition add_line (l : log_line) (s : state) : state :=
  {| calls := calls s; flashes := flashes s;
     console := console s ++ [l]; local_response := local_response s |}.

Definition set_local (r : option response) (s : state) : state :=
  {| calls := calls s; flashes := flashes s;
     console := console s; local_response := r |}.

Definition M (A : Type) : Type := state → result A * state.

Definition ret {A : Type} (a : A) : M A := fun s => (Ok a, s).

Definition bind {A B : Type} (c : M A) (k : A → M B) : M B :=
  fun s =>
    match c s with
    | (Ok a, s') => k a s'
    | (Raise e, s') => (Raise e, s')
    end.

Notation "'let*' x ':=' c 'in' k" := (bind c (fun x => k))
  (at level 10, x name, c at level 100, k at level 200).

Definition lift {A : Type} (r : result A) : M A := fun s => (r, s).

(** [try: body / except requests.RequestException as e: handler]; the
    effects of the part of [body] that ran are kept. *)
Definition try_except {A : Type} (body : M A) (handler : exn → M A) : M A :=
  fun s =>
    match body s with
    | (Raise e, s') =>
        if is_RequestException e then handler e s' else (Raise e, s')
    | done => done
    end.

Definition flash (message category : string) : M unit :=
  fun s => (Ok tt, add_flash (message, category) s).

Definition print (l : log_line) : M unit :=
  fun s => (Ok tt, add_line l s).

(** [response = ...] and the read of [response]; reading the name while
    it is unbound raises [UnboundLocalError]. *)
Definition store_response (r : response) : M unit :=
  fun s => (Ok tt, set_local (Some r) s).

Definition load_response : M response :=
  fun s =>
    match local_response s with
    | Some r => (Ok r, s)
    | None => (Raise (UnboundLocalError "response"), s)
    end.

(** A function call: the callee starts with its locals unbound, and the
    caller's frame is back when it returns or raises. *)
Definition call {A : Type} (body : M A) : M A :=
  fun s =>
    match body (set_local None s) with
    | (r, s') => (r, set_local (local_response s) s')
    end.

(** ** Flask: the incoming request and the answers of a view *)

(** [request.method], [request.form] and [request.args]; both multi-dicts
    hold strings and [get] reads the first value of a key. *)
Record request : Type := {
  method : string;
  form : list (string * string);
  args : list (string * string)
}.

Fixpoint multidict_get (d : list (string * string)) (key : string) : option string :=
  match d with
  | [] => None
  | (k, v) :: rest => if String.eqb k key then Some v else multidict_get rest key
  end.

(** [d.get(key)] is the string or [None]; [d.get(key, default)] the
    string or the default. *)
Definition get_or_none (d : list (string * string)) (key : string) : json :=
  match multidict_get d key with
  | Some v => JStr v
  | None => JNull
  end.

Definition get_or (d : list (string * string)) (key default : string) : string :=
  match multidict_get d key with
  | Some v => v
  | None => default
  end.

(** The views, and the rule each is routed at. *)
Inductive endpoint : Type := ep_index | ep_files | ep_download.

Definition route (e : endpoint) : string :=
  match e with
  | ep_index => "/"
  | ep_files => "/files"
  | ep_download => "/download"
  end.

(** [url_for(endpoint, **values)], kept symbolic. *)
Record url : Type := {
  url_endpoint : endpoint;
  url_values : list (string * json)
}.

Definition url_for (e : endpoint) (values : list (string * json)) : url :=
  {| url_endpoint := e; url_values := values |}.

(** What a view returns: [redirect(...)], [render_template(...)] (with
    its status) or [send_file(BytesIO(content), download_name=...,
    as_attachment=True)]. *)
Inductive http_response : Type :=
| Redirect (location : url)
| Page (template : string) (context : list (string * json)) (status : Z)
| SendFile (body : list Byte.byte) (download_name : json) (as_attachment : bool).

(** ** The application *)

Definition YANDEX_DISK_API_BASE : string :=
  "https://cloud-api.yandex.net/v1/disk/public/resources".

Definition YANDEX_DISK_DOWNLOAD_URL : string :=
  "https://cloud-api.yandex.net/v1/disk/public/resources/download".

Definition resources_request (public_key path : json) : http_request :=
  {| req_url := JStr YANDEX_DISK_API_BASE;
     req_params := [("public_key", public_key); ("path", path);
                    ("limit", JInt 1000); ("offset", JInt 0)] |}.

Definition href_request (public_key path : json) : http_request :=
  {| req_url := JStr YANDEX_DISK_DOWNLOAD_URL;
     req_params := [("public_key", public_key); ("path", path)] |}.

Definition msg_no_link : string := "Пожалуйста, введите публичную ссылку.".
Definition msg_no_public_key : string := "Отсутствует публичная ссылка.".
Definition msg_no_data : string :=
  "Не удалось получить данные с Яндекс.Диска. Проверьте ссылку.".
Definition msg_bad_params : string := "Некорректные параметры для скачивания.".
Definition msg_no_href : string := "Не удалось получить ссылку для скачивания.".
Definition msg_download_failed : string := "Ошибка при скачивании файла: ".

Section App.

Variable net : network.

(** [requests.get(url, params=params)] *)
Definition requests_get (c : http_request) : M response :=
  fun s => (net c, add_call c s).

(** In the [except] clause [response] is read for [is not None]; a
    [Response] never is [None], so once the read succeeds the server's
    answer is printed. *)
Definition get_public_resources (public_key path : json) : M json :=
  call
    (try_except
       (let* r := requests_get (resources_request public_key path) in
        let* _ := store_response r in
        let* response := load_response in
        let* _ := lift (raise_for_status response) in
        let* response := load_response in
        lift (json_body response))
       (fun e =>
          let* _ := print (LogResourcesError e) in
          let* response := load_response in
          let* _ := print (LogServerAnswer (text response)) in
          ret JNull)).

Definition get_download_href (public_key path : json) : M json :=
  call
    (try_except
       (let* r := requests_get (href_request public_key path) in
        let* _ := store_response r in
        let* response := load_response in
        let* _ := lift (raise_for_status response) in
        let* response := load_response in
        let* data := lift (json_body response) in
        let* href := lift (py_get data "href" JNull) in
        let* _ := (if negb (py_truthy href)
                   then print (LogHrefMissing data) else ret tt) in
        ret href)
       (fun e =>
          let* _ := print (LogDownloadHrefError e) in
          let* response := load_response in
          let* _ := print (LogServerAnswer (text response)) in
          ret JNull)).

Definition index (req : request) : M http_response :=
  if String.eqb (method req) "POST" then
    let public_link := get_or_none (form req) "public_link" in
    if negb (py_truthy public_link) then
      let* _ := flash msg_no_link "danger" in
      ret (Redirect (url_for ep_index []))
    else ret (Redirect (url_for ep_files [("public_key", public_link)]))
  else ret (Page "index.html" [] 200).

Definition files (req : request) : M http_response :=
  let public_key := get_or_none (args req) "public_key" in
  let path := get_or (args req) "path" "" in
  let filter_type := get_or (args req) "filter" "" in
  if negb (py_truthy public_key) then
    let* _ := flash msg_no_public_key "danger" in
    ret (Redirect (url_for ep_index []))
  else
    let* resources := get_public_resources public_key (JStr path) in
    if negb (py_truthy resources) then
      let* _ := flash msg_no_data "danger" in
      ret (Redirect (url_for ep_index []))
    else
      let* embedded := lift (py_get resources "_embedded" (JObj [])) in
      let* items := lift (py_get embedded "items" (JArr [])) in
      let* items := lift (apply_filter filter_type items) in
      ret (Page "files.html"
             [("items", items); ("public_key", public_key); ("path", JStr path)]
             200).

Definition download (req : request) : M http_response :=
  let public_key := get_or_none (args req) "public_key" in
  let path := get_or_none (args req) "path" in
  let name := get_or_none (args req) "name" in
  if negb (forallb py_truthy [public_key; path; name]) then
    let* _ := flash msg_bad_params "danger" in
    ret (Redirect (url_for ep_files [("public_key", public_key)]))
  else
    let* href := get_download_href public_key path in
    if negb (py_truthy href) then
      let* _ := flash msg_no_href "danger" in
      ret (Redirect (url_for ep_files [("public_key", public_key)]))
    else
      try_except
        (let* file_response :=
           requests_get {| req_url := href; req_params := [] |} in
         let* _ := lift (raise_for_status file_response) in
         ret (SendFile (content file_response) name true))
        (fun e =>
           let* _ := flash (msg_download_failed ++ exn_str e) "danger" in
           ret (Redirect (url_for ep_files [("public_key", public_key)]))).

Definition page_not_found : M http_response :=
  ret (Page "404.html" [] 404).

End App.

(** A fresh request: nothing called, flashed or printed yet. *)
Definition initial : state :=
  {| calls := []; flashes := []; console := []; local_response := None |}.

(** ** Resource entries, as the specification describes them *)

(** A resource entry is a JSON object; its [file] member, when there is
    one, is an object too (it carries the extension). *)
Definition is_dict (v : json) : bool :=
  match v with
  | JObj _ => true
  | _ => false
  end.

Definition entry_shape (e : json) : bool :=
  match e with
  | JObj fields =>
      match dict_get fields "file" with
      | Some f => is_dict f
      | None => true
      end
  | _ => false
  end.

(** The [type] of an entry and its [extension], when they are there and
    are strings. *)
Definition entry_type (e : json) : option string :=
  match e with
  | JObj fields =>
      match dict_get fields "type" with
      | Some (JStr t) => Some t
      | _ => None
      end
  | _ => None
  end.

Definition entry_extension (e : json) : option string :=
  match e with
  | JObj fields =>
      match dict_get fields "file" with
      | Some (JObj file) =>
          match dict_get file "extension" with
          | Some (JStr x) => Some x
          | _ => None
          end
      | _ => None
      end
  | _ => None
  end.

(** The three categories of the filter stage, in the specification's
    words: a folder has type [dir]; a document (an image) has type [file]
    and an extension of the document (image) set. *)
Definition folder_entry (e : json) : bool :=
  match entry_type e with
  | Some t => String.eqb t "dir"
  | None => false
  end.

Definition file_entry_of (types : list string) (e : json) : bool :=
  match entry_type e, entry_extension e with
  | Some t, Some x => String.eqb t "file" && existsb (String.eqb x) types
  | _, _ => false
  end.

Definition document_entry : json → bool := file_entry_of doc_types.
Definition image_entry : json → bool := file_entry_of img_types.

(** The predicate a category keeps, [None] for a category that does not
    filter. *)
Definition category_keeps (filter_type : string) : option (json → bool) :=
  if String.eqb filter_type "folder" then Some folder_entry
  else if String.eqb filter_type "document" then Some document_entry
  else if String.eqb filter_type "image" then Some image_entry
  else None.

(** [filter(entries, category)] as the specification defines it. *)
Definition spec_filter (filter_type : string) (entries : list json) : list json :=
  match category_keeps filter_type with
  | Some keep => List.filter keep entries
  | None => entries
  end.

(** ** Sample data *)

(** The listing of the specification's scenario: a folder [Photos] and a
    file [a.pdf]. *)
Definition photos_entry : json :=
  JObj [("type", JStr "dir"); ("name", JStr "Photos")].

Definition a_pdf_entry : json :=
  JObj [("type", JStr "file"); ("name", JStr "a.pdf");
        ("file", JObj [("extension", JStr "pdf")])].

Definition sample_entries : list json := [photos_entry; a_pdf_entry].

Definition sample_listing : json :=
  JObj [("_embedded", JObj [("items", JArr sample_entries)])].

(** An entry whose extension is written in capitals. *)
Definition capital_pdf_entry : json :=
  JObj [("type", JStr "file"); ("name", JStr "B.PDF");
        ("file", JObj [("extension", JStr "PDF")])].

Definition answer (status : Z) (body : result json) : response :=
  {| status_code := status; text := ""; content := []; json_body := body |}.

(** Networks that answer every call alike. *)
Definition net_answers (r : response) : network := fun _ => Ok r.

Definition net_unreachable : network :=
  fun _ => Raise (RequestException "ConnectionError" "connection refused").

Definition browse_request (public_key filter : string) : request :=
  {| method := "GET"; form := [];
     args := [("public_key", public_key); ("filter", filter)] |}.

Definition download_request (arguments : list (string * string)) : request :=
  {| method := "GET"; form := []; args := arguments |}.

(** The arguments a browse or download request is read for. *)
Definition arg_public_key (req : request) : json :=
  get_or_none (args req) "public_key".

Definition arg_browse_path (req : request) : json :=
  JStr (get_or (args req) "path" "").

Definition arg_path (req : request) : json := get_or_none (args req) "path".

Definition arg_name (req : request) : json := get_or_none (args req) "name".

(** The listing call of a browse request and the download-href call of a
    download request. *)
Definition listing_call (req : request) : http_request :=
  resources_request (arg_public_key req) (arg_browse_path req).

Definition href_call (req : request) : http_request :=
  href_request (arg_public_key req) (arg_path req).

(** The answer of [files] to a failed listing: back to the index, with
    one message flashed. *)
Definition back_to_index : http_response := Redirect (url_for ep_index []).

Definition back_to_files (req : request) : http_response :=
  Redirect (url_for ep_files [("public_key", arg_public_key req)]).

(** The categories the filter stage tells apart. *)
Definition categories : list string := ["folder"; "document"; "image"].

(** The values that are not iterable. *)
Definition is_scalar (v : json) : bool :=
  match v with
  | JNull | JBool _ | JInt _ | JFloat _ => true
  | _ => false
  end.

(** The call that fetches the bytes: [requests.get(href)], no [params]. *)
Definition fetch_call (href : json) : http_request :=
  {| req_url := href; req_params := [] |}.

(** What [requests.get(href)] followed by [raise_for_status()] comes to:
    the response, or the exception of either. *)
Definition fetch_outcome (net : network) (href : json) : result response :=
  let? r := net (fetch_call href) in
  let? _ := raise_for_status r in
  Ok r.

(** A network that answers the download-href call with [api] and any
    other call with [other]. *)
Definition net_download (api : response) (other : result response) : network :=
  fun c =>
    if py_eq_str (req_url c) YANDEX_DISK_DOWNLOAD_URL then Ok api else other.

Definition href_answer (href : json) : response :=
  answer 200 (Ok (JObj [("href", href)])).



Definition full_download_request : request :=
  download_request [("public_key", "k"); ("path", "/a.pdf"); ("name", "a.pdf")].

Definition post_request (fields : list (string * string)) : request :=
  {| method := "POST"; form := fields; args := [] |}.

(** An entry of type [file] that carries no extension. *)
Definition bare_file_entry : json :=
  JObj [("type", JStr "file"); ("name", JStr "README")].

(** * Properties *)

(** Running the monad: [run] unfolds its operations, [norm_state] brings
    the resulting state to a record of appended lists. *)
Ltac run :=
  unfold call, try_except, bind, requests_get, store_response, load_response,
    lift, print, flash, ret; simpl.

Ltac norm_state :=
  unfold set_local, add_line, add_call, add_flash; simpl;
  rewrite <- ?app_assoc, ?app_nil_r; simpl.

(** ** The comprehension *)

(** When the condition evaluates on every element, the comprehension is
    the filter by its outcome. *)
Lemma comprehension_filter (cond : json → result bool) (keep : json → bool)
    (items : list json) :
  Forall (λ item, cond item = Ok (keep item)) items →
  comprehension cond items = Ok (List.filter keep items).
Proof.
  induction 1 as [|item rest Hitem _ IH]; simpl; [reflexivity|].
  rewrite Hitem; simpl. rewrite IH; simpl. reflexivity.
Qed.

(** Whatever the condition, a comprehension that returns has kept a
    sublist, on each element of which the condition held. *)
Lemma comprehension_sublist (cond : json → result bool) (items kept : list json) :
  comprehension cond items = Ok kept →
  sublist kept items ∧ Forall (λ item, cond item = Ok true) kept.
Proof.
  revert kept. induction items as [|item rest IH]; simpl; intros kept H.
  - inversion H; subst. split; constructor.
  - destruct (cond item) as [keep|] eqn:Hc; simpl in H; [|discriminate].
    destruct (comprehension cond rest) as [kept'|]; simpl in H; [|discriminate].
    destruct (IH kept' eq_refl) as [Hsub Hall].
    inversion H; subst; clear H. destruct keep.
    + split; [by apply sublist_skip | by constructor].
    + split; [by apply sublist_cons | done].
Qed.

(** Running the comprehension on its own result changes nothing. *)
Lemma comprehension_again (cond : json → result bool) (items kept : list json) :
  comprehension cond items = Ok kept → comprehension cond kept = Ok kept.
Proof.
  intros H. apply comprehension_sublist in H as [_ Hall].
  induction Hall as [|item rest Hitem _ IH]; simpl; [reflexivity|].
  rewrite Hitem; simpl. rewrite IH; simpl. reflexivity.
Qed.

(** ** The conditions against the categories of the specification *)

Lemma cond_folder_spec (e : json) :
  is_dict e = true → cond_folder e = Ok (folder_entry e).
Proof.
  destruct e as [| | | | |?|fields]; try discriminate. intros _.
  unfold cond_folder, folder_entry; simpl.
  destruct (dict_get fields "type") as [[]|]; reflexivity.
Qed.

Lemma py_in_str (v : json) (types : list string) :
  py_in v types =
  match v with
  | JStr x => existsb (String.eqb x) types
  | _ => false
  end.
Proof.
  unfold py_in. induction types as [|t rest IH]; simpl.
  - by destruct v.
  - rewrite IH. by destruct v.
Qed.

Lemma cond_file_of_spec (types : list string) (e : json) :
  entry_shape e = true → cond_file_of types e = Ok (file_entry_of types e).
Proof.
  destruct e as [| | | | |?|fields]; try discriminate.
  unfold cond_file_of, file_entry_of; simpl.
  destruct (dict_get fields "type") as [[| | | |t| |]|]; simpl;
    try (intros _; reflexivity).
  destruct (String.eqb t "file") eqn:Ht; simpl.
  - destruct (dict_get fields "file") as [[| | | | | |file]|]; simpl;
      try discriminate; intros _.
    + rewrite py_in_str. destruct (dict_get file "extension") as [[]|]; reflexivity.
    + by rewrite py_in_str.
  - intros _.
    destruct (dict_get fields "file") as [[| | | | | |file]|];
      try reflexivity.
    destruct (dict_get file "extension") as [[]|]; reflexivity.
Qed.

Lemma entry_shape_is_dict (e : json) : entry_shape e = true → is_dict e = true.
Proof. destruct e; simpl; congruence. Qed.

Lemma folder_entry_iff (e : json) :
  folder_entry e = true ↔ entry_type e = Some "dir".
Proof.
  unfold folder_entry. destruct (entry_type e) as [t|].
  - rewrite String.eqb_eq. split; congruence.
  - split; discriminate.
Qed.

Lemma file_entry_of_iff (types : list string) (e : json) :
  file_entry_of types e = true ↔
  entry_type e = Some "file" ∧ ∃ x, entry_extension e = Some x ∧ x ∈ types.
Proof.
  unfold file_entry_of.
  destruct (entry_type e) as [t|], (entry_extension e) as [x|].
  - rewrite andb_true_iff, String.eqb_eq, existsb_exists. split.
    + intros [-> (y & Hin & Hy)]. apply String.eqb_eq in Hy as <-.
      split; [done|]. exists x. split; [done|]. by apply list_elem_of_In.
    + intros [[= ->] (y & [= <-] & Hin)]. split; [done|].
      exists x. split; [by apply list_elem_of_In | apply String.eqb_refl].
  - split; [discriminate|]. by intros [_ (y & [=] & _)].
  - split; [discriminate|]. by intros [[=] _].
  - split; [discriminate|]. by intros [[=] _].
Qed.

(** On a list of entries the filter stage returns, and returns what the
    specification's filter does. *)
Lemma apply_filter_spec (filter_type : string) (entries : list json) :
  Forall (λ e, entry_shape e = true) entries →
  apply_filter filter_type (JArr entries) = Ok (JArr (spec_filter filter_type entries)).
Proof.
  intros Hshape. unfold apply_filter, spec_filter, category_keeps, list_comp.
  destruct (String.eqb filter_type "folder");
    [|destruct (String.eqb filter_type "document");
      [|destruct (String.eqb filter_type "image")]]; simpl; try reflexivity.
  - rewrite (comprehension_filter _ folder_entry); [reflexivity|].
    eapply Forall_impl; [exact Hshape|]. intros e He; simpl.
    by apply cond_folder_spec, entry_shape_is_dict.
  - rewrite (comprehension_filter _ document_entry); [reflexivity|].
    eapply Forall_impl; [exact Hshape|]. intros e He. by apply cond_file_of_spec.
  - rewrite (comprehension_filter _ image_entry); [reflexivity|].
    eapply Forall_impl; [exact Hshape|]. intros e He. by apply cond_file_of_spec.
Qed.

Lemma spec_filter_sublist (filter_type : string) (entries : list json) :
  sublist (spec_filter filter_type entries) entries.
Proof.
  unfold spec_filter. destruct (category_keeps filter_type) as [keep|]; [|done].
  induction entries as [|e rest IH]; simpl; [constructor|].
  destruct (keep e); by constructor.
Qed.

Lemma spec_filter_shape (filter_type : string) (entries : list json) :
  Forall (λ e, entry_shape e = true) entries →
  Forall (λ e, entry_shape e = true) (spec_filter filter_type entries).
Proof.
  rewrite !Forall_forall. intros H e He. apply H.
  eapply elem_of_sublist; [exact He | apply spec_filter_sublist].
Qed.

(** Applying the filter stage to its own result returns that result
    again, for every value of [items] and every category. *)
Lemma apply_filter_again (filter_type : string) (items once : json) :
  apply_filter filter_type items = Ok once →
  apply_filter filter_type once = Ok once.
Proof.
  unfold apply_filter, list_comp.
  destruct (String.eqb filter_type "folder");
    [|destruct (String.eqb filter_type "document");
      [|destruct (String.eqb filter_type "image")]]; try done;
  (destruct (py_iter items) as [elems|]; simpl; [|discriminate];
   destruct (comprehension _ elems) as [kept|] eqn:Hk; simpl; [|discriminate];
   intros [= <-]; simpl; by rewrite (comprehension_again _ _ _ Hk)).
Qed.

(** ** The filter stage: the claims *)

(** The scenario of the specification: of [Photos] and [a.pdf] the
    document filter keeps exactly [a.pdf], the folder filter exactly
    [Photos]. *)
Example filter_scenario :
  apply_filter "document" (JArr sample_entries) = Ok (JArr [a_pdf_entry]) ∧
  apply_filter "folder" (JArr sample_entries) = Ok (JArr [photos_entry]).
Proof. split; reflexivity. Qed.

(** The extension is compared as it comes: [PDF] is not [pdf]. *)
Example filter_document_case_sensitive :
  apply_filter "document" (JArr [capital_pdf_entry; a_pdf_entry])
  = Ok (JArr [a_pdf_entry]).
Proof. reflexivity. Qed.

(** C2: on every list of entries, the [document] filter returns exactly
    the entries of type [file] whose extension is one of doc, docx, pdf,
    txt, xls, xlsx, ppt, pptx (compared as strings, unchanged): the
    result is the input filtered by that predicate, so every entry of the
    result satisfies it and every input entry satisfying it is kept. *)
Theorem filter_document_exact (entries : list json) :
  Forall (λ e, entry_shape e = true) entries →
  apply_filter "document" (JArr entries)
  = Ok (JArr (List.filter document_entry entries)) ∧
  ∀ e, e ∈ List.filter document_entry entries ↔
       e ∈ entries ∧ entry_type e = Some "file" ∧
       ∃ x, entry_extension e = Some x ∧
            x ∈ ["doc"; "docx"; "pdf"; "txt"; "xls"; "xlsx"; "ppt"; "pptx"].
Proof.
  intros Hshape. split.
  - exact (apply_filter_spec "document" entries Hshape).
  - intros e. rewrite !list_elem_of_In, filter_In, <- !list_elem_of_In.
    unfold document_entry. rewrite file_entry_of_iff. reflexivity.
Qed.

Lemma filter_document_exact_witness :
  Forall (λ e, entry_shape e = true) sample_entries ∧
  apply_filter "document" (JArr sample_entries)
  = Ok (JArr (List.filter document_entry sample_entries)).
Proof.
  split.
  - repeat constructor.
  - apply (filter_document_exact sample_entries). repeat constructor.
Defined.

(** C6: on every list of entries, the [folder] filter returns a subset of
    the input, and every element of the result has type [dir]. *)
Theorem filter_folder_subset (entries : list json) :
  Forall (λ e, is_dict e = true) entries →
  ∃ kept, apply_filter "folder" (JArr entries) = Ok (JArr kept) ∧
          kept ⊆ entries ∧
          Forall (λ e, entry_type e = Some "dir") kept.
Proof.
  intros Hdict. exists (List.filter folder_entry entries). split; [|split].
  - unfold apply_filter, list_comp; simpl.
    rewrite (comprehension_filter _ folder_entry); [reflexivity|].
    eapply Forall_impl; [exact Hdict|]. intros e He. by apply cond_folder_spec.
  - intros e. rewrite !list_elem_of_In, filter_In. tauto.
  - apply Forall_forall. intros e. rewrite list_elem_of_In, filter_In.
    intros [_ He]. by apply folder_entry_iff.
Qed.

Lemma filter_folder_subset_witness :
  Forall (λ e, is_dict e = true) sample_entries ∧
  ∃ kept, apply_filter "folder" (JArr sample_entries) = Ok (JArr kept) ∧
          kept ⊆ sample_entries ∧
          Forall (λ e, entry_type e = Some "dir") kept.
Proof.
  split.
  - repeat constructor.
  - apply (filter_folder_subset sample_entries). repeat constructor.
Defined.

(** C7: filtering is idempotent.  For every list of entries and every
    category (the empty one, [folder], [document], [image] or any other
    string) the filter returns, and applied to its own result with the
    same category it returns that result again. *)
Theorem filter_idempotent (filter_type : string) (entries : list json) :
  Forall (λ e, entry_shape e = true) entries →
  ∃ once, apply_filter filter_type (JArr entries) = Ok (JArr once) ∧
          apply_filter filter_type (JArr once) = Ok (JArr once).
Proof.
  intros Hshape. exists (spec_filter filter_type entries).
  pose proof (apply_filter_spec filter_type entries Hshape) as Honce.
  split; [exact Honce|]. exact (apply_filter_again _ _ _ Honce).
Qed.

Lemma filter_idempotent_witness :
  Forall (λ e, entry_shape e = true) sample_entries ∧
  ∃ once, apply_filter "image" (JArr sample_entries) = Ok (JArr once) ∧
          apply_filter "image" (JArr once) = Ok (JArr once).
Proof.
  split.
  - repeat constructor.
  - apply (filter_idempotent "image" sample_entries). repeat constructor.
Defined.

(** C8: with an empty or unrecognised category (any string other than
    [folder], [document], [image]) the filter stage is the identity: it
    returns [items] itself, same elements in the same order. *)
Theorem filter_unrecognized_identity (filter_type : string) (items : json) :
  filter_type ≠ "folder" → filter_type ≠ "document" → filter_type ≠ "image" →
  apply_filter filter_type items = Ok items.
Proof.
  intros Hf Hd Hi. unfold apply_filter.
  apply String.eqb_neq in Hf, Hd, Hi. by rewrite Hf, Hd, Hi.
Qed.

Lemma filter_unrecognized_identity_witness :
  ("" ≠ "folder" ∧ "" ≠ "document" ∧ "" ≠ "image") ∧
  apply_filter "" (JArr sample_entries) = Ok (JArr sample_entries).
Proof.
  split.
  - repeat split; discriminate.
  - apply (filter_unrecognized_identity "" (JArr sample_entries)); discriminate.
Defined.

(** C10: for every list of entries and every category the result of the
    filter is a sublist of the input: entries of the input, in their
    original relative order, none of them twice, none of them new. *)
Theorem filter_order_preserving (filter_type : string) (entries : list json) :
  Forall (λ e, entry_shape e = true) entries →
  ∃ kept, apply_filter filter_type (JArr entries) = Ok (JArr kept) ∧
          sublist kept entries.
Proof.
  intros Hshape. exists (spec_filter filter_type entries). split.
  - by apply apply_filter_spec.
  - apply spec_filter_sublist.
Qed.

Lemma filter_order_preserving_witness :
  Forall (λ e, entry_shape e = true) sample_entries ∧
  ∃ kept, apply_filter "document" (JArr sample_entries) = Ok (JArr kept) ∧
          sublist kept sample_entries.
Proof.
  split.
  - repeat constructor.
  - apply (filter_order_preserving "document" sample_entries). repeat constructor.
Defined.

(** ** The helpers *)

Lemma raise_for_status_error (r : response) :
  400 ≤ status_code r < 600 →
  ∃ msg, raise_for_status r = Raise (RequestException "HTTPError" msg).
Proof.
  intros [Hlo Hhi]. unfold raise_for_status.
  destruct (status_code r <? 500) eqn:H5.
  - exists "Client Error". by rewrite (proj2 (Z.leb_le _ _) Hlo).
  - exists "Server Error". apply Z.ltb_ge in H5.
    rewrite andb_false_r.
    by rewrite (proj2 (Z.leb_le _ _) H5), (proj2 (Z.ltb_lt _ _) Hhi).
Qed.

Lemma raise_for_status_ok (r : response) :
  status_code r < 400 ∨ 600 ≤ status_code r → raise_for_status r = Ok tt.
Proof.
  intros H. unfold raise_for_status.
  destruct (400 <=? status_code r) eqn:H4, (status_code r <? 500) eqn:H5,
    (500 <=? status_code r) eqn:H6, (status_code r <? 600) eqn:H7;
    simpl; try reflexivity; lia.
Qed.

(** A listing call answered with a status that [raise_for_status]
    rejects: the helper prints two lines and returns [None]. *)
Lemma get_public_resources_rejected (net : network) (public_key path : json)
    (s : state) (resp : response) (e : exn) :
  net (resources_request public_key path) = Ok resp →
  raise_for_status resp = Raise e →
  is_RequestException e = true →
  get_public_resources net public_key path s
  = (Ok JNull,
     {| calls := calls s ++ [resources_request public_key path];
        flashes := flashes s;
        console := console s ++ [LogResourcesError e; LogServerAnswer (text resp)];
        local_response := local_response s |}).
Proof.
  intros Hnet Hraise He. unfold get_public_resources. run.
  rewrite Hnet; simpl. rewrite Hraise; simpl. rewrite He; simpl.
  by norm_state.
Qed.

(** A listing call answered with a status that [raise_for_status]
    accepts and a body that decodes: the helper returns the body. *)
Lemma get_public_resources_decoded (net : network) (public_key path : json)
    (s : state) (resp : response) (body : json) :
  net (resources_request public_key path) = Ok resp →
  raise_for_status resp = Ok tt →
  json_body resp = Ok body →
  get_public_resources net public_key path s
  = (Ok body,
     {| calls := calls s ++ [resources_request public_key path];
        flashes := flashes s;
        console := console s;
        local_response := local_response s |}).
Proof.
  intros Hnet Hraise Hbody. unfold get_public_resources. run.
  rewrite Hnet; simpl. rewrite Hraise; simpl. rewrite Hbody.
  by norm_state.
Qed.

(** A listing call that [requests.get] itself fails: the [except] clause
    reads [response], which was never bound, and the helper raises
    [UnboundLocalError] instead of returning [None]. *)
Lemma get_public_resources_transport_failure (net : network)
    (public_key path : json) (s : state) (e : exn) :
  net (resources_request public_key path) = Raise e →
  is_RequestException e = true →
  get_public_resources net public_key path s
  = (Raise (UnboundLocalError "response"),
     {| calls := calls s ++ [resources_request public_key path];
        flashes := flashes s;
        console := console s ++ [LogResourcesError e];
        local_response := local_response s |}).
Proof.
  intros Hnet He. unfold get_public_resources. run.
  rewrite Hnet; simpl. rewrite He. by norm_state.
Qed.

(** The same slip in the other helper. *)
Lemma get_download_href_transport_failure (net : network)
    (public_key path : json) (s : state) (e : exn) :
  net (href_request public_key path) = Raise e →
  is_RequestException e = true →
  get_download_href net public_key path s
  = (Raise (UnboundLocalError "response"),
     {| calls := calls s ++ [href_request public_key path];
        flashes := flashes s;
        console := console s ++ [LogDownloadHrefError e];
        local_response := local_response s |}).
Proof.
  intros Hnet He. unfold get_download_href. run.
  rewrite Hnet; simpl. rewrite He. by norm_state.
Qed.

(** A download-href call answered with an accepted status and a JSON
    object: the helper returns the object's [href], [None] when there is
    none, and prints a line when that value is falsy. *)
Lemma get_download_href_decoded (net : network) (public_key path : json)
    (s : state) (resp : response) (fields : list (string * json)) :
  net (href_request public_key path) = Ok resp →
  raise_for_status resp = Ok tt →
  json_body resp = Ok (JObj fields) →
  let href := match dict_get fields "href" with Some v => v | None => JNull end in
  get_download_href net public_key path s
  = (Ok href,
     {| calls := calls s ++ [href_request public_key path];
        flashes := flashes s;
        console := console s ++
                   (if py_truthy href then [] else [LogHrefMissing (JObj fields)]);
        local_response := local_response s |}).
Proof.
  intros Hnet Hraise Hbody href. unfold get_download_href. run.
  rewrite Hnet; simpl. rewrite Hraise; simpl. rewrite Hbody; simpl.
  fold href. destruct (py_truthy href); simpl; by norm_state.
Qed.

(** ** The views: the claims *)

(** What [files] does once the helper has returned [resources]. *)
Lemma files_after_listing (net : network) (req : request) (s s1 : state)
    (resources : json) :
  py_truthy (arg_public_key req) = true →
  get_public_resources net (arg_public_key req) (arg_browse_path req) s
  = (Ok resources, s1) →
  files net req s =
  if py_truthy resources then
    match
      (let? embedded := py_get resources "_embedded" (JObj []) in
       let? items := py_get embedded "items" (JArr []) in
       apply_filter (get_or (args req) "filter" "") items)
    with
    | Ok items =>
        (Ok (Page "files.html"
               [("items", items); ("public_key", arg_public_key req);
                ("path", arg_browse_path req)] 200), s1)
    | Raise e => (Raise e, s1)
    end
  else (Ok back_to_index, add_flash (msg_no_data, "danger") s1).
Proof.
  unfold arg_public_key, arg_browse_path. intros Hkey Hres.
  unfold files. rewrite Hkey; simpl. unfold bind at 1. rewrite Hres.
  destruct (py_truthy resources); simpl; [|reflexivity].
  run. destruct (py_get resources "_embedded" (JObj [])) as [embedded|]; simpl;
    [|reflexivity].
  destruct (py_get embedded "items" (JArr [])) as [items|]; simpl; [|reflexivity].
  by destruct (apply_filter _ items).
Qed.

(** [files] on a listing call whose status [raise_for_status] rejects. *)
Lemma files_on_rejected (net : network) (req : request) (s : state)
    (resp : response) :
  py_truthy (arg_public_key req) = true →
  net (listing_call req) = Ok resp →
  400 ≤ status_code resp < 600 →
  ∃ e,
    get_public_resources net (arg_public_key req) (arg_browse_path req) s
    = (Ok JNull,
       {| calls := calls s ++ [listing_call req];
          flashes := flashes s;
          console := console s ++ [LogResourcesError e; LogServerAnswer (text resp)];
          local_response := local_response s |}) ∧
    files net req s
    = (Ok back_to_index,
       {| calls := calls s ++ [listing_call req];
          flashes := flashes s ++ [(msg_no_data, "danger")];
          console := console s ++ [LogResourcesError e; LogServerAnswer (text resp)];
          local_response := local_response s |}).
Proof.
  intros Hkey Hnet Hstatus.
  destruct (raise_for_status_error resp Hstatus) as [msg Hraise].
  pose proof (get_public_resources_rejected net _ _ s resp _ Hnet Hraise eq_refl)
    as Hres.
  eexists. split; [exact Hres|].
  by rewrite (files_after_listing net req s _ JNull Hkey Hres).
Qed.

(** C1 (amended): for every browse request with a public key, if the
    remote listing call is answered with a 4xx or 5xx status, the helper
    returns [None] without raising, and [files] answers with a redirect
    to [/] and one [danger] flash, rendering no entries; it made the one
    listing call. *)
Theorem files_listing_rejected (net : network) (req : request) (s : state)
    (resp : response) :
  py_truthy (arg_public_key req) = true →
  net (listing_call req) = Ok resp →
  400 ≤ status_code resp < 600 →
  fst (get_public_resources net (arg_public_key req) (arg_browse_path req) s)
  = Ok JNull ∧
  route ep_index = "/" ∧
  ∃ s', files net req s = (Ok (Redirect (url_for ep_index [])), s') ∧
        flashes s' = (flashes s ++ [(msg_no_data, "danger")])%list ∧
        calls s' = (calls s ++ [listing_call req])%list.
Proof.
  intros Hkey Hnet Hstatus.
  destruct (files_on_rejected net req s resp Hkey Hnet Hstatus)
    as (e & Hres & Hfiles).
  split; [by rewrite Hres|]. split; [reflexivity|].
  eexists. split; [exact Hfiles|]. by split.
Qed.

Lemma files_listing_rejected_witness :
  fst (files (net_answers (answer 404 (Ok JNull))) (browse_request "k" "") initial)
  = Ok (Redirect (url_for ep_index [])).
Proof.
  destruct (files_listing_rejected (net_answers (answer 404 (Ok JNull)))
              (browse_request "k" "") initial (answer 404 (Ok JNull)))
    as (_ & _ & s' & Hfiles & _).
  - reflexivity.
  - reflexivity.
  - simpl; lia.
  - by rewrite Hfiles.
Defined.

(** C1 as stated fails twice.  When [requests.get] itself fails, the
    helper raises [UnboundLocalError] out of its [except] clause and so
    does [files]; and a status outside 2xx that is not 4xx or 5xx (here
    300, with a listing as body) is no failure for [raise_for_status]:
    [files] renders the entries. *)
Lemma files_listing_failure_counterexample :
  (is_RequestException
     (RequestException "ConnectionError" "connection refused") = true ∧
   net_unreachable (listing_call (browse_request "k" ""))
   = Raise (RequestException "ConnectionError" "connection refused") ∧
   fst (get_public_resources net_unreachable (JStr "k") (JStr "") initial)
   = Raise (UnboundLocalError "response") ∧
   fst (files net_unreachable (browse_request "k" "") initial)
   = Raise (UnboundLocalError "response")) ∧
  (¬ (200 ≤ status_code (answer 300 (Ok sample_listing)) < 300) ∧
   fst (files (net_answers (answer 300 (Ok sample_listing)))
          (browse_request "k" "") initial)
   = Ok (Page "files.html"
           [("items", JArr sample_entries); ("public_key", JStr "k");
            ("path", JStr "")] 200)).
Proof.
  split.
  - repeat split; reflexivity.
  - split; [simpl; lia | reflexivity].
Qed.

(** C9: if the listing call succeeds (2xx) and its JSON body is falsy
    ([{}], [[]], [null], [0], the empty string, [false]), [files] treats
    it exactly like a rejected listing: it flashes the same [danger]
    message and redirects to the index, and renders nothing. *)
Theorem files_falsy_listing (net : network) (req : request) (s : state)
    (resp : response) (body : json) :
  py_truthy (arg_public_key req) = true →
  net (listing_call req) = Ok resp →
  200 ≤ status_code resp < 300 →
  json_body resp = Ok body →
  py_truthy body = false →
  (∃ s', files net req s = (Ok (Redirect (url_for ep_index [])), s') ∧
         flashes s' = (flashes s ++ [(msg_no_data, "danger")])%list) ∧
  ∀ (net' : network) (resp' : response),
    net' (listing_call req) = Ok resp' →
    400 ≤ status_code resp' < 600 →
    fst (files net' req s) = fst (files net req s) ∧
    flashes (snd (files net' req s)) = flashes (snd (files net req s)).
Proof.
  intros Hkey Hnet Hstatus Hbody Hfalsy.
  assert (Hraise : raise_for_status resp = Ok tt)
    by (apply raise_for_status_ok; lia).
  pose proof (get_public_resources_decoded net _ _ s resp body Hnet Hraise Hbody)
    as Hres.
  pose proof (files_after_listing net req s _ body Hkey Hres) as Hfiles.
  rewrite Hfalsy in Hfiles. split.
  - eexists. split; [exact Hfiles|]. reflexivity.
  - intros net' resp' Hnet' Hstatus'.
    destruct (files_on_rejected net' req s resp' Hkey Hnet' Hstatus')
      as (e & _ & Hfiles').
    by rewrite Hfiles', Hfiles.
Qed.

Lemma files_falsy_listing_witness :
  ∃ s', files (net_answers (answer 200 (Ok (JObj [])))) (browse_request "k" "") initial
        = (Ok (Redirect (url_for ep_index [])), s') ∧
        flashes s' = (flashes initial ++ [(msg_no_data, "danger")])%list.
Proof.
  apply (files_falsy_listing (net_answers (answer 200 (Ok (JObj []))))
           (browse_request "k" "") initial (answer 200 (Ok (JObj []))) (JObj [])).
  - reflexivity.
  - reflexivity.
  - simpl; lia.
  - reflexivity.
  - reflexivity.
Defined.

(** C5: for every listing call that succeeds (2xx) with a truthy JSON
    object that has no [_embedded] member, or whose [_embedded] object has
    no [items] member, the entry list is empty and no error is signalled:
    [files] renders the page with no items, whatever the filter, and
    flashes nothing. *)
Theorem files_missing_items (net : network) (req : request) (s : state)
    (resp : response) (fields : list (string * json)) :
  py_truthy (arg_public_key req) = true →
  net (listing_call req) = Ok resp →
  200 ≤ status_code resp < 300 →
  json_body resp = Ok (JObj fields) →
  py_truthy (JObj fields) = true →
  (dict_get fields "_embedded" = None ∨
   ∃ embedded, dict_get fields "_embedded" = Some (JObj embedded) ∧
               dict_get embedded "items" = None) →
  ∃ s', files net req s
        = (Ok (Page "files.html"
                 [("items", JArr []); ("public_key", arg_public_key req);
                  ("path", arg_browse_path req)] 200), s') ∧
        flashes s' = flashes s.
Proof.
  intros Hkey Hnet Hstatus Hbody Htruthy Hmissing.
  assert (Hraise : raise_for_status resp = Ok tt)
    by (apply raise_for_status_ok; lia).
  pose proof (get_public_resources_decoded net _ _ s resp _ Hnet Hraise Hbody)
    as Hres.
  rewrite (files_after_listing net req s _ _ Hkey Hres), Htruthy.
  assert (Hitems :
    (let? embedded := py_get (JObj fields) "_embedded" (JObj []) in
     py_get embedded "items" (JArr [])) = Ok (JArr [])).
  { simpl. destruct Hmissing as [-> | (embedded & -> & Hnone)]; simpl.
    - reflexivity.
    - by rewrite Hnone. }
  assert (Hfilter : ∀ ft, apply_filter ft (JArr []) = Ok (JArr [])).
  { intros ft. unfold apply_filter, list_comp; simpl.
    by destruct (String.eqb ft "folder"), (String.eqb ft "document"),
      (String.eqb ft "image"). }
  destruct (py_get (JObj fields) "_embedded" (JObj [])) as [embedded|];
    simpl in Hitems |- *; [|discriminate].
  rewrite Hitems; simpl. rewrite Hfilter.
  eexists. split; reflexivity.
Qed.

Lemma files_missing_items_witness :
  ∃ s', files (net_answers (answer 200 (Ok (JObj [("_embedded", JObj [])]))))
          (browse_request "k" "document") initial
        = (Ok (Page "files.html"
                 [("items", JArr []); ("public_key", JStr "k");
                  ("path", JStr "")] 200), s') ∧
        flashes s' = flashes initial.
Proof.
  apply (files_missing_items
           (net_answers (answer 200 (Ok (JObj [("_embedded", JObj [])]))))
           (browse_request "k" "document") initial
           (answer 200 (Ok (JObj [("_embedded", JObj [])])))
           [("_embedded", JObj [])]).
  - reflexivity.
  - reflexivity.
  - simpl; lia.
  - reflexivity.
  - reflexivity.
  - right. exists []. split; reflexivity.
Defined.

(** An [_embedded] member that is not an object is another matter: the
    second [get] has no dictionary to read and [files] raises. *)
Example files_embedded_null :
  fst (files (net_answers (answer 200 (Ok (JObj [("_embedded", JNull)]))))
         (browse_request "k" "") initial)
  = Raise (AttributeError "NoneType" "get").
Proof. reflexivity. Qed.

(** C3: for every download request in which [public_key], [path] or
    [name] is absent or empty, [download] makes no outbound call: it
    flashes one [danger] message and redirects to the listing, and the
    calls made are those made before. *)
Theorem download_missing_params (net : network) (req : request) (s : state)
    (key : string) :
  key ∈ ["public_key"; "path"; "name"] →
  multidict_get (args req) key = None ∨ multidict_get (args req) key = Some "" →
  ∃ s', download net req s
        = (Ok (Redirect (url_for ep_files [("public_key", arg_public_key req)])), s') ∧
        calls s' = calls s ∧
        flashes s' = (flashes s ++ [(msg_bad_params, "danger")])%list.
Proof.
  intros Hkey Hmissing.
  assert (Hfalsy : py_truthy (get_or_none (args req) key) = false).
  { unfold get_or_none. by destruct Hmissing as [-> | ->]. }
  assert (Hall : forallb py_truthy
            [get_or_none (args req) "public_key"; get_or_none (args req) "path";
             get_or_none (args req) "name"] = false).
  { simpl. rewrite !list_elem_of_In in Hkey. simpl in Hkey.
    destruct Hkey as [<- | [<- | [<- | []]]]; rewrite Hfalsy; simpl.
    - reflexivity.
    - by rewrite andb_false_r.
    - by rewrite !andb_false_r. }
  unfold download. rewrite Hall; simpl. run.
  eexists. split; [reflexivity|]. split; reflexivity.
Qed.

Lemma download_missing_params_witness :
  ∃ s', download net_unreachable
          (download_request [("public_key", "k"); ("path", ""); ("name", "a.pdf")])
          initial
        = (Ok (Redirect (url_for ep_files [("public_key", JStr "k")])), s') ∧
        calls s' = calls initial ∧
        flashes s' = (flashes initial ++ [(msg_bad_params, "danger")])%list.
Proof.
  apply (download_missing_params net_unreachable
           (download_request [("public_key", "k"); ("path", ""); ("name", "a.pdf")])
           initial "path").
  - apply list_elem_of_In. simpl. right. left. reflexivity.
  - right. reflexivity.
Defined.

(** C4: for every download request with its three arguments, if the
    download-href call succeeds (2xx) and its JSON object has no [href]
    member or has [href] equal to [null], the helper returns [None],
    [download] flashes the no-href message and redirects to the listing,
    and the download-href call is the only outbound call: the bytes are
    never fetched. *)
Theorem download_no_href (net : network) (req : request) (s : state)
    (resp : response) (fields : list (string * json)) :
  py_truthy (arg_public_key req) = true →
  py_truthy (arg_path req) = true →
  py_truthy (arg_name req) = true →
  net (href_call req) = Ok resp →
  200 ≤ status_code resp < 300 →
  json_body resp = Ok (JObj fields) →
  dict_get fields "href" = None ∨ dict_get fields "href" = Some JNull →
  fst (get_download_href net (arg_public_key req) (arg_path req) s) = Ok JNull ∧
  ∃ s', download net req s
        = (Ok (Redirect (url_for ep_files [("public_key", arg_public_key req)])), s') ∧
        flashes s' = (flashes s ++ [(msg_no_href, "danger")])%list ∧
        calls s' = (calls s ++ [href_call req])%list.
Proof.
  unfold href_call, arg_public_key, arg_path, arg_name.
  intros Hkey Hpath Hname Hnet Hstatus Hbody Hhref.
  assert (Hraise : raise_for_status resp = Ok tt)
    by (apply raise_for_status_ok; lia).
  pose proof (get_download_href_decoded net _ _ s resp fields Hnet Hraise Hbody)
    as Hres. simpl in Hres.
  assert (Hnull : match dict_get fields "href" with Some v => v | None => JNull end
                  = JNull) by (by destruct Hhref as [-> | ->]).
  rewrite Hnull in Hres. simpl in Hres.
  split; [by rewrite Hres|].
  unfold download. simpl. rewrite Hkey, Hpath, Hname; simpl.
  unfold bind at 1. rewrite Hres; simpl. run.
  eexists. split; [reflexivity|]. split; reflexivity.
Qed.

Lemma download_no_href_witness :
  ∃ s', download (net_answers (answer 200 (Ok (JObj [("href", JNull)]))))
          (download_request [("public_key", "k"); ("path", "/a.pdf"); ("name", "a.pdf")])
          initial
        = (Ok (Redirect (url_for ep_files [("public_key", JStr "k")])), s') ∧
        flashes s' = (flashes initial ++ [(msg_no_href, "danger")])%list ∧
        calls s' = (calls initial ++
                    [href_request (JStr "k") (JStr "/a.pdf")])%list.
Proof.
  apply (download_no_href (net_answers (answer 200 (Ok (JObj [("href", JNull)]))))
           (download_request [("public_key", "k"); ("path", "/a.pdf"); ("name", "a.pdf")])
           initial (answer 200 (Ok (JObj [("href", JNull)]))) [("href", JNull)]).
  - reflexivity.
  - reflexivity.
  - reflexivity.
  - reflexivity.
  - simpl; lia.
  - reflexivity.
  - right. reflexivity.
Defined.

(** A browse request without a [filter] argument shows the items of the
    listing as they came. *)
Lemma files_without_filter (net : network) (req : request) (s s1 : state)
    (fields embedded : list (string * json)) (items : json) :
  py_truthy (arg_public_key req) = true →
  multidict_get (args req) "filter" = None →
  get_public_resources net (arg_public_key req) (arg_browse_path req) s
  = (Ok (JObj fields), s1) →
  py_truthy (JObj fields) = true →
  dict_get fields "_embedded" = Some (JObj embedded) →
  dict_get embedded "items" = Some items →
  files net req s
  = (Ok (Page "files.html"
           [("items", items); ("public_key", arg_public_key req);
            ("path", arg_browse_path req)] 200), s1).
Proof.
  intros Hkey Hfilter Hres Htruthy Hemb Hitems.
  rewrite (files_after_listing net req s s1 _ Hkey Hres), Htruthy.
  unfold get_or. rewrite Hfilter. simpl. rewrite Hemb; simpl.
  by rewrite Hitems.
Qed.

(** * Further properties of the filter stage *)

(** On a list of entries the [image] filter returns exactly the entries
    of type [file] whose extension is one of jpg, jpeg, png, gif, bmp. *)
Theorem filter_image_exact (entries : list json) :
  Forall (λ e, entry_shape e = true) entries →
  apply_filter "image" (JArr entries)
  = Ok (JArr (List.filter image_entry entries)) ∧
  ∀ e, e ∈ List.filter image_entry entries ↔
       e ∈ entries ∧ entry_type e = Some "file" ∧
       ∃ x, entry_extension e = Some x ∧
            x ∈ ["jpg"; "jpeg"; "png"; "gif"; "bmp"].
Proof.
  intros Hshape. split.
  - exact (apply_filter_spec "image" entries Hshape).
  - intros e. rewrite !list_elem_of_In, filter_In, <- !list_elem_of_In.
    unfold image_entry. rewrite file_entry_of_iff. reflexivity.
Qed.

Lemma filter_image_exact_witness :
  apply_filter "image" (JArr sample_entries)
  = Ok (JArr (List.filter image_entry sample_entries)).
Proof.
  apply (filter_image_exact sample_entries). repeat constructor.
Defined.

Lemma filter_filter_nil (p q : json → bool) (l : list json) :
  (∀ e, p e = true → q e = false) →
  List.filter q (List.filter p l) = [].
Proof.
  intros Hpq. induction l as [|e rest IH]; simpl; [reflexivity|].
  destruct (p e) eqn:Hp; simpl; [|exact IH].
  by rewrite (Hpq e Hp).
Qed.

Lemma folder_not_file (types : list string) (e : json) :
  folder_entry e = true → file_entry_of types e = false.
Proof.
  unfold folder_entry, file_entry_of.
  destruct (entry_type e) as [t|]; [|discriminate].
  intros Ht. apply String.eqb_eq in Ht as ->. by destruct (entry_extension e).
Qed.

Lemma file_not_folder (types : list string) (e : json) :
  file_entry_of types e = true → folder_entry e = false.
Proof.
  intros Hfile. destruct (folder_entry e) eqn:Hfolder; [|reflexivity].
  by rewrite (folder_not_file types e Hfolder) in Hfile.
Qed.

Lemma document_not_image (e : json) :
  document_entry e = true → image_entry e = false.
Proof.
  unfold document_entry, image_entry, file_entry_of.
  destruct (entry_type e) as [t|]; [|discriminate].
  destruct (entry_extension e) as [x|]; [|discriminate].
  intros [_ Hdoc]%andb_true_iff. apply existsb_exists in Hdoc as (y & Hin & Hy).
  apply String.eqb_eq in Hy as <-. rewrite andb_false_iff. right.
  simpl in Hin. by repeat (destruct Hin as [<- | Hin]; [reflexivity|]).
Qed.

Lemma image_not_document (e : json) :
  image_entry e = true → document_entry e = false.
Proof.
  intros Himg. destruct (document_entry e) eqn:Hdoc; [|reflexivity].
  by rewrite (document_not_image e Hdoc) in Himg.
Qed.

(** The categories exclude each other: filtering the result of one
    category by another one leaves nothing. *)
Theorem filter_categories_exclusive (first second : string) (entries : list json) :
  Forall (λ e, entry_shape e = true) entries →
  first ∈ categories → second ∈ categories → first ≠ second →
  ∃ kept, apply_filter first (JArr entries) = Ok (JArr kept) ∧
          apply_filter second (JArr kept) = Ok (JArr []).
Proof.
  intros Hshape Hfirst Hsecond Hne. exists (spec_filter first entries).
  split; [by apply apply_filter_spec|].
  rewrite (apply_filter_spec second); [|by apply spec_filter_shape].
  do 2 f_equal. unfold categories in *.
  rewrite !list_elem_of_In in Hfirst, Hsecond. simpl in Hfirst, Hsecond.
  destruct Hfirst as [<- | [<- | [<- | []]]];
    destruct Hsecond as [<- | [<- | [<- | []]]]; try done;
    unfold spec_filter; simpl; apply filter_filter_nil; intros e.
  - apply folder_not_file.
  - apply folder_not_file.
  - apply file_not_folder.
  - apply document_not_image.
  - apply file_not_folder.
  - apply image_not_document.
Qed.

Lemma filter_categories_exclusive_witness :
  ∃ kept, apply_filter "document" (JArr sample_entries) = Ok (JArr kept) ∧
          apply_filter "image" (JArr kept) = Ok (JArr []).
Proof.
  apply (filter_categories_exclusive "document" "image" sample_entries).
  - repeat constructor.
  - apply list_elem_of_In. simpl. right. left. reflexivity.
  - apply list_elem_of_In. simpl. right. right. left. reflexivity.
  - discriminate.
Defined.

(** An entry of type [file] without an extension (no [file] member, or
    none that holds a string [extension]) passes neither the [document]
    nor the [image] filter. *)
Theorem filter_drops_missing_extension (filter_type : string)
    (entries : list json) (e : json) :
  Forall (λ e, entry_shape e = true) entries →
  filter_type = "document" ∨ filter_type = "image" →
  entry_extension e = None →
  ∃ kept, apply_filter filter_type (JArr entries) = Ok (JArr kept) ∧ e ∉ kept.
Proof.
  intros Hshape Hft Hnone. exists (spec_filter filter_type entries).
  split; [by apply apply_filter_spec|].
  rewrite list_elem_of_In.
  destruct Hft as [-> | ->]; unfold spec_filter; simpl; rewrite filter_In;
    intros [_ Hkeep]; apply file_entry_of_iff in Hkeep as (_ & x & Hx & _);
    congruence.
Qed.

Lemma filter_drops_missing_extension_witness :
  ∃ kept, apply_filter "document" (JArr [bare_file_entry; a_pdf_entry])
          = Ok (JArr kept) ∧ bare_file_entry ∉ kept.
Proof.
  apply (filter_drops_missing_extension "document"
           [bare_file_entry; a_pdf_entry] bare_file_entry).
  - repeat constructor.
  - left. reflexivity.
  - reflexivity.
Defined.

Lemma comprehension_raises (cond : json → result bool) (keep : json → bool)
    (before after : list json) (bad : json) (e : exn) :
  Forall (λ item, cond item = Ok (keep item)) before →
  cond bad = Raise e →
  comprehension cond (before ++ bad :: after) = Raise e.
Proof.
  intros Hbefore Hbad. induction Hbefore as [|item rest Hitem _ IH]; simpl.
  - by rewrite Hbad.
  - rewrite Hitem; simpl. by rewrite IH.
Qed.

(** An element that is not a dictionary stops a filter: with entries
    before it, the comprehension raises [AttributeError] for the [get] of
    that element's type, and nothing is returned. *)
Theorem filter_raises_on_non_dict (filter_type : string)
    (before after : list json) (bad : json) :
  filter_type ∈ categories →
  Forall (λ e, entry_shape e = true) before →
  is_dict bad = false →
  apply_filter filter_type (JArr (before ++ bad :: after))
  = Raise (AttributeError (type_name bad) "get").
Proof.
  intros Hft Hbefore Hbad.
  assert (Hget : ∀ key default,
            py_get bad key default = Raise (AttributeError (type_name bad) "get"))
    by (intros; by destruct bad).
  unfold categories in Hft. rewrite !list_elem_of_In in Hft. simpl in Hft.
  destruct Hft as [<- | [<- | [<- | []]]]; unfold apply_filter, list_comp; simpl.
  - rewrite (comprehension_raises _ folder_entry _ _ bad
               (AttributeError (type_name bad) "get")); [reflexivity| |].
    + eapply Forall_impl; [exact Hbefore|]. intros e He.
      by apply cond_folder_spec, entry_shape_is_dict.
    + unfold cond_folder. by rewrite Hget.
  - rewrite (comprehension_raises _ document_entry _ _ bad
               (AttributeError (type_name bad) "get")); [reflexivity| |].
    + eapply Forall_impl; [exact Hbefore|]. intros e He. by apply cond_file_of_spec.
    + unfold cond_file_of. by rewrite Hget.
  - rewrite (comprehension_raises _ image_entry _ _ bad
               (AttributeError (type_name bad) "get")); [reflexivity| |].
    + eapply Forall_impl; [exact Hbefore|]. intros e He. by apply cond_file_of_spec.
    + unfold cond_file_of. by rewrite Hget.
Qed.

Lemma filter_raises_on_non_dict_witness :
  apply_filter "folder" (JArr ([photos_entry] ++ JStr "oops" :: [a_pdf_entry]))
  = Raise (AttributeError "str" "get").
Proof.
  apply (filter_raises_on_non_dict "folder" [photos_entry] [a_pdf_entry] (JStr "oops")).
  - apply list_elem_of_In. simpl. left. reflexivity.
  - repeat constructor.
  - reflexivity.
Defined.

(** With a category that filters, [items] that is [None], a boolean or a
    number cannot be iterated: the filter raises [TypeError]. *)
Theorem filter_raises_on_scalar (filter_type : string) (items : json) :
  filter_type ∈ categories →
  is_scalar items = true →
  ∃ msg, apply_filter filter_type items = Raise (TypeError msg).
Proof.
  intros Hft Hscalar. unfold categories in Hft.
  rewrite !list_elem_of_In in Hft. simpl in Hft.
  destruct Hft as [<- | [<- | [<- | []]]];
    destruct items; try discriminate; eexists; reflexivity.
Qed.

Lemma filter_raises_on_scalar_witness :
  ∃ msg, apply_filter "image" (JInt 5) = Raise (TypeError msg).
Proof.
  apply (filter_raises_on_scalar "image" (JInt 5)).
  - apply list_elem_of_In. simpl. right. right. left. reflexivity.
  - reflexivity.
Defined.

(** * Further properties of the helpers and the views *)

(** ** What the helpers do on every network *)

Lemma raise_for_status_request_exception (r : response) (e : exn) :
  raise_for_status r = Raise e → is_RequestException e = true.
Proof.
  unfold raise_for_status.
  destruct (_ && _); [by intros [= <-]|].
  destruct (_ && _); [by intros [= <-]|]. discriminate.
Qed.

Lemma py_get_raises (obj : json) (key : string) (default : json) (e : exn) :
  py_get obj key default = Raise e → is_RequestException e = false.
Proof. destruct obj; simpl; try discriminate; by intros [= <-]. Qed.

(** Whatever the network does, [get_public_resources] makes its one
    call, flashes nothing, leaves the caller's frame alone, and lets no
    [RequestException] out. *)
Lemma get_public_resources_effects (net : network) (public_key path : json)
    (s : state) :
  ∃ r s1, get_public_resources net public_key path s = (r, s1) ∧
          calls s1 = (calls s ++ [resources_request public_key path])%list ∧
          flashes s1 = flashes s ∧
          local_response s1 = local_response s ∧
          ∀ e, r = Raise e → is_RequestException e = false.
Proof.
  unfold get_public_resources. run.
  destruct (net (resources_request public_key path)) as [resp|e]; simpl.
  - destruct (raise_for_status resp) as [[]|e] eqn:Hraise; simpl.
    + destruct (json_body resp) as [body|e]; simpl.
      * do 2 eexists. split; [reflexivity|]. repeat split; try done.
      * destruct (is_RequestException e) eqn:He; simpl;
          do 2 eexists; (split; [reflexivity|]); repeat split; try done.
        by intros ? [= <-].
    + rewrite (raise_for_status_request_exception resp e Hraise); simpl.
      do 2 eexists. split; [reflexivity|]. repeat split; try done.
  - destruct (is_RequestException e) eqn:He; simpl;
      do 2 eexists; (split; [reflexivity|]); repeat split; try done.
    + by intros ? [= <-].
    + by intros ? [= <-].
Qed.

Lemma get_download_href_effects (net : network) (public_key path : json)
    (s : state) :
  ∃ r s1, get_download_href net public_key path s = (r, s1) ∧
          calls s1 = (calls s ++ [href_request public_key path])%list ∧
          flashes s1 = flashes s ∧
          local_response s1 = local_response s ∧
          ∀ e, r = Raise e → is_RequestException e = false.
Proof.
  unfold get_download_href. run.
  destruct (net (href_request public_key path)) as [resp|e]; simpl.
  - destruct (raise_for_status resp) as [[]|e] eqn:Hraise; simpl.
    + destruct (json_body resp) as [data|e]; simpl.
      * destruct (py_get data "href" JNull) as [href|e] eqn:Hget; simpl.
        -- destruct (py_truthy href); simpl;
             do 2 eexists; (split; [reflexivity|]); repeat split; try done.
        -- pose proof (py_get_raises _ _ _ _ Hget) as He. rewrite He; simpl.
           do 2 eexists. split; [reflexivity|]. repeat split; try done.
           by intros ? [= <-].
      * destruct (is_RequestException e) eqn:He; simpl;
          do 2 eexists; (split; [reflexivity|]); repeat split; try done.
        by intros ? [= <-].
    + rewrite (raise_for_status_request_exception resp e Hraise); simpl.
      do 2 eexists. split; [reflexivity|]. repeat split; try done.
  - destruct (is_RequestException e) eqn:He; simpl;
      do 2 eexists; (split; [reflexivity|]); repeat split; try done.
    + by intros ? [= <-].
    + by intros ? [= <-].
Qed.

Lemma comprehension_raises_no_request_exception (cond : json → result bool)
    (items : list json) (e : exn) :
  (∀ item e, cond item = Raise e → is_RequestException e = false) →
  comprehension cond items = Raise e → is_RequestException e = false.
Proof.
  intros Hcond. induction items as [|item rest IH]; simpl; [discriminate|].
  destruct (cond item) as [keep|e'] eqn:Hitem; simpl.
  - destruct (comprehension cond rest) as [kept|e']; simpl; [discriminate|].
    intros [= <-]. by apply IH.
  - intros [= <-]. by apply (Hcond item).
Qed.

Lemma apply_filter_raises (filter_type : string) (items : json) (e : exn) :
  apply_filter filter_type items = Raise e → is_RequestException e = false.
Proof.
  assert (Hfolder : ∀ item e, cond_folder item = Raise e →
                              is_RequestException e = false).
  { intros item e'. unfold cond_folder.
    destruct (py_get item "type" JNull) eqn:Hget; simpl; [discriminate|].
    intros [= <-]. by apply py_get_raises in Hget. }
  assert (Hfile : ∀ types item e, cond_file_of types item = Raise e →
                                  is_RequestException e = false).
  { intros types item e'. unfold cond_file_of.
    destruct (py_get item "type" JNull) as [t|] eqn:Hget; simpl.
    - destruct (py_eq_str t "file"); [|discriminate].
      destruct (py_get item "file" (JObj [])) as [file|] eqn:Hget2; simpl.
      + destruct (py_get file "extension" JNull) eqn:Hget3; simpl; [discriminate|].
        intros [= <-]. by apply py_get_raises in Hget3.
      + intros [= <-]. by apply py_get_raises in Hget2.
    - intros [= <-]. by apply py_get_raises in Hget. }
  assert (Hcomp : ∀ cond,
            (∀ item e, cond item = Raise e → is_RequestException e = false) →
            list_comp cond items = Raise e → is_RequestException e = false).
  { intros cond Hcond. unfold list_comp.
    destruct (py_iter items) as [elems|e'] eqn:Hiter; simpl.
    - destruct (comprehension cond elems) as [kept|e'] eqn:Hk; simpl; [discriminate|].
      intros [= <-]. by apply (comprehension_raises_no_request_exception cond elems).
    - intros [= <-]. destruct items; simpl in Hiter; try discriminate;
        by injection Hiter as <-. }
  unfold apply_filter.
  destruct (String.eqb filter_type "folder"); [by apply Hcomp|].
  destruct (String.eqb filter_type "document"); [by apply Hcomp, Hfile|].
  destruct (String.eqb filter_type "image"); [by apply Hcomp, Hfile|].
  discriminate.
Qed.

(** [files] with a public key: the helper's outcome, then the rest. *)
Lemma files_with_key (net : network) (req : request) (s : state) :
  py_truthy (arg_public_key req) = true →
  ∃ r s1,
    get_public_resources net (arg_public_key req) (arg_browse_path req) s = (r, s1) ∧
    calls s1 = (calls s ++ [listing_call req])%list ∧
    flashes s1 = flashes s ∧
    (∀ e, r = Raise e → is_RequestException e = false) ∧
    match r with
    | Raise e => files net req s = (Raise e, s1)
    | Ok resources =>
        if py_truthy resources then
          match
            (let? embedded := py_get resources "_embedded" (JObj []) in
             let? items := py_get embedded "items" (JArr []) in
             apply_filter (get_or (args req) "filter" "") items)
          with
          | Ok items =>
              files net req s =
              (Ok (Page "files.html"
                     [("items", items); ("public_key", arg_public_key req);
                      ("path", arg_browse_path req)] 200), s1)
          | Raise e => files net req s = (Raise e, s1) ∧ is_RequestException e = false
          end
        else files net req s
             = (Ok back_to_index, add_flash (msg_no_data, "danger") s1)
    end.
Proof.
  intros Hkey.
  destruct (get_public_resources_effects net (arg_public_key req)
              (arg_browse_path req) s) as (r & s1 & Hres & Hcalls & Hflash & _ & Hexn).
  exists r, s1. repeat split; try done.
  destruct r as [resources|e].
  - rewrite (files_after_listing net req s s1 resources Hkey Hres).
    destruct (py_truthy resources); [|reflexivity].
    destruct (py_get resources "_embedded" (JObj [])) as [embedded|e] eqn:H1; simpl.
    + destruct (py_get embedded "items" (JArr [])) as [items|e] eqn:H2; simpl.
      * destruct (apply_filter _ items) as [kept|e] eqn:H3; [reflexivity|].
        split; [reflexivity|]. by apply apply_filter_raises in H3.
      * split; [reflexivity|]. by apply py_get_raises in H2.
    + split; [reflexivity|]. by apply py_get_raises in H1.
  - unfold arg_public_key, arg_browse_path in Hres, Hkey.
    unfold files. rewrite Hkey; simpl. unfold bind at 1. by rewrite Hres.
Qed.

(** ** The index view *)

(** [index] never calls out and never raises; the only message it ever
    flashes is the one for a missing link, and then it redirects back to
    the form. *)
Theorem index_no_network (req : request) (s : state) :
  ∃ resp s', index req s = (Ok resp, s') ∧
             calls s' = calls s ∧
             (flashes s' = flashes s ∨
              resp = Redirect (url_for ep_index []) ∧
              flashes s' = (flashes s ++ [(msg_no_link, "danger")])%list).
Proof.
  unfold index. destruct (String.eqb (method req) "POST").
  - destruct (py_truthy (get_or_none (form req) "public_link")); simpl.
    + do 2 eexists. split; [reflexivity|]. split; [reflexivity|]. by left.
    + run. do 2 eexists. split; [reflexivity|]. split; [reflexivity|]. by right.
  - do 2 eexists. split; [reflexivity|]. split; [reflexivity|]. by left.
Qed.

(** A posted, non-empty link is handed on as it is: [index] redirects to
    the listing with [public_key] equal to the link, and has no effect. *)
Theorem index_submits_link (req : request) (s : state) (link : string) :
  method req = "POST" →
  multidict_get (form req) "public_link" = Some link →
  link ≠ "" →
  index req s
  = (Ok (Redirect (url_for ep_files [("public_key", JStr link)])), s).
Proof.
  intros Hpost Hlink Hne. unfold index, get_or_none. rewrite Hpost, Hlink; simpl.
  by destruct link.
Qed.

Lemma index_submits_link_witness :
  index (post_request [("public_link", "https://disk.yandex.ru/d/x")]) initial
  = (Ok (Redirect (url_for ep_files
                     [("public_key", JStr "https://disk.yandex.ru/d/x")])), initial).
Proof.
  apply (index_submits_link
           (post_request [("public_link", "https://disk.yandex.ru/d/x")]) initial
           "https://disk.yandex.ru/d/x").
  - reflexivity.
  - reflexivity.
  - discriminate.
Defined.

(** ** The listing view on every network *)

(** Without a public key (absent or empty) [files] makes no call: it
    flashes its message and redirects to the index. *)
Theorem files_missing_public_key (net : network) (req : request) (s : state) :
  multidict_get (args req) "public_key" = None ∨
  multidict_get (args req) "public_key" = Some "" →
  ∃ s', files net req s = (Ok (Redirect (url_for ep_index [])), s') ∧
        calls s' = calls s ∧
        flashes s' = (flashes s ++ [(msg_no_public_key, "danger")])%list.
Proof.
  intros Hmissing. unfold files, get_or_none.
  destruct Hmissing as [-> | ->]; simpl; run;
    eexists; (split; [reflexivity|]); by split.
Qed.

Lemma files_missing_public_key_witness :
  ∃ s', files net_unreachable (browse_request "" "folder") initial
        = (Ok (Redirect (url_for ep_index [])), s') ∧
        calls s' = calls initial ∧
        flashes s' = (flashes initial ++ [(msg_no_public_key, "danger")])%list.
Proof.
  apply (files_missing_public_key net_unreachable (browse_request "" "folder") initial).
  right. reflexivity.
Defined.

(** With a public key [files] makes exactly one call, whatever the
    network answers and however the view ends: the listing call, with the
    key and the path as given (the path empty when absent), limit 1000 and
    offset 0.  It never asks for a second page. *)
Theorem files_one_listing_call (net : network) (req : request) (s : state) :
  py_truthy (get_or_none (args req) "public_key") = true →
  calls (snd (files net req s))
  = (calls s ++
     [{| req_url := JStr "https://cloud-api.yandex.net/v1/disk/public/resources";
         req_params := [("public_key", get_or_none (args req) "public_key");
                        ("path", JStr (get_or (args req) "path" ""));
                        ("limit", JInt 1000); ("offset", JInt 0)] |}])%list.
Proof.
  intros Hkey.
  destruct (files_with_key net req s Hkey) as (r & s1 & _ & Hcalls & _ & _ & Hfiles).
  destruct r as [resources|e]; [|by rewrite Hfiles].
  destruct (py_truthy resources); [|by rewrite Hfiles].
  destruct (let? embedded := py_get resources "_embedded" (JObj []) in _) as [items|e].
  - by rewrite Hfiles.
  - destruct Hfiles as [-> _]. exact Hcalls.
Qed.

Lemma files_one_listing_call_witness :
  calls (snd (files net_unreachable (browse_request "k" "") initial))
  = (calls initial ++
     [{| req_url := JStr "https://cloud-api.yandex.net/v1/disk/public/resources";
         req_params := [("public_key", JStr "k"); ("path", JStr "");
                        ("limit", JInt 1000); ("offset", JInt 0)] |}])%list.
Proof.
  apply (files_one_listing_call net_unreachable (browse_request "k" "") initial).
  reflexivity.
Defined.

(** No [RequestException] ever leaves [files]: what it raises, if it
    raises, is of another class. *)
Theorem files_no_request_exception (net : network) (req : request) (s : state)
    (e : exn) :
  fst (files net req s) = Raise e → is_RequestException e = false.
Proof.
  destruct (py_truthy (arg_public_key req)) eqn:Hkey.
  - destruct (files_with_key net req s Hkey) as (r & s1 & _ & _ & _ & Hexn & Hfiles).
    destruct r as [resources|e'].
    + destruct (py_truthy resources); [|by rewrite Hfiles].
      destruct (let? embedded := py_get resources "_embedded" (JObj []) in _)
        as [items|e'].
      * by rewrite Hfiles.
      * destruct Hfiles as [-> He']. by intros [= <-].
    + rewrite Hfiles. intros [= <-]. by apply Hexn.
  - unfold files. unfold arg_public_key in Hkey. by rewrite Hkey.
Qed.

Lemma files_no_request_exception_witness :
  is_RequestException (UnboundLocalError "response") = false.
Proof.
  apply (files_no_request_exception net_unreachable (browse_request "k" "") initial).
  reflexivity.
Defined.

(** When [requests.get] itself fails on the listing call, [files] ends
    with [UnboundLocalError] for [response], and has flashed nothing. *)
Theorem files_transport_failure (net : network) (req : request) (s : state)
    (e : exn) :
  py_truthy (arg_public_key req) = true →
  net (listing_call req) = Raise e →
  is_RequestException e = true →
  ∃ s', files net req s = (Raise (UnboundLocalError "response"), s') ∧
        flashes s' = flashes s.
Proof.
  intros Hkey Hnet He.
  pose proof (get_public_resources_transport_failure net _ _ s e Hnet He) as Hres.
  destruct (files_with_key net req s Hkey) as (r & s1 & Hres' & _ & Hflash & _ & Hfiles).
  rewrite Hres in Hres'. injection Hres' as <- <-.
  eexists. split; [exact Hfiles|]. reflexivity.
Qed.

Lemma files_transport_failure_witness :
  ∃ s', files net_unreachable (browse_request "k" "") initial
        = (Raise (UnboundLocalError "response"), s') ∧
        flashes s' = flashes initial.
Proof.
  apply (files_transport_failure net_unreachable (browse_request "k" "") initial
           (RequestException "ConnectionError" "connection refused"));
    reflexivity.
Defined.

(** An exception that is no [RequestException], raised by [requests.get]
    or by [json()] on an accepted answer, goes through [files] as it is;
    nothing is flashed. *)
Theorem files_propagates_other_exceptions (net : network) (req : request)
    (s : state) (e : exn) :
  py_truthy (arg_public_key req) = true →
  is_RequestException e = false →
  net (listing_call req) = Raise e ∨
  (∃ resp, net (listing_call req) = Ok resp ∧
           raise_for_status resp = Ok tt ∧ json_body resp = Raise e) →
  ∃ s', files net req s = (Raise e, s') ∧ flashes s' = flashes s.
Proof.
  intros Hkey He Hnet.
  destruct (files_with_key net req s Hkey) as (r & s1 & Hres & _ & Hflash & _ & Hfiles).
  assert (Hr : r = Raise e).
  { revert Hres. unfold get_public_resources, listing_call in *. run.
    destruct Hnet as [-> | (resp & -> & Hraise & Hbody)]; simpl.
    - rewrite He. by intros [= <- _].
    - rewrite Hraise; simpl. rewrite Hbody; simpl. rewrite He. by intros [= <- _]. }
  subst r. eexists. split; [exact Hfiles|]. exact Hflash.
Qed.

Lemma files_propagates_other_exceptions_witness :
  ∃ s', files (net_answers (answer 200 (Raise (ValueError "no JSON"))))
          (browse_request "k" "") initial
        = (Raise (ValueError "no JSON"), s') ∧
        flashes s' = flashes initial.
Proof.
  apply (files_propagates_other_exceptions
           (net_answers (answer 200 (Raise (ValueError "no JSON"))))
           (browse_request "k" "") initial (ValueError "no JSON")).
  - reflexivity.
  - reflexivity.
  - right. eexists. split; [reflexivity|]. split; reflexivity.
Defined.



(** From the listing to the page: on an accepted answer whose object
    holds a list of entries under [_embedded.items], [files] renders the
    page with those entries filtered by the category asked for (all of
    them when it is none of the three), in their order, and flashes
    nothing. *)
Theorem files_renders_filtered (net : network) (req : request) (s : state)
    (resp : response) (fields embedded : list (string * json))
    (entries : list json) :
  py_truthy (arg_public_key req) = true →
  net (listing_call req) = Ok resp →
  status_code resp < 400 ∨ 600 ≤ status_code resp →
  json_body resp = Ok (JObj fields) →
  dict_get fields "_embedded" = Some (JObj embedded) →
  dict_get embedded "items" = Some (JArr entries) →
  Forall (λ e, entry_shape e = true) entries →
  ∃ s', files net req s
        = (Ok (Page "files.html"
                 [("items", JArr (spec_filter (get_or (args req) "filter" "") entries));
                  ("public_key", arg_public_key req);
                  ("path", arg_browse_path req)] 200), s') ∧
        flashes s' = flashes s.
Proof.
  intros Hkey Hnet Hstatus Hbody Hemb Hitems Hshape.
  pose proof (get_public_resources_decoded net _ _ s resp _ Hnet
                (raise_for_status_ok resp Hstatus) Hbody) as Hres.
  rewrite (files_after_listing net req s _ _ Hkey Hres).
  assert (Htruthy : py_truthy (JObj fields) = true)
    by (destruct fields; [discriminate | reflexivity]).
  rewrite Htruthy. simpl. rewrite Hemb; simpl. rewrite Hitems.
  rewrite (apply_filter_spec _ entries Hshape).
  eexists. split; reflexivity.
Qed.

Lemma files_renders_filtered_witness :
  ∃ s', files (net_answers (answer 200 (Ok sample_listing)))
          (browse_request "k" "folder") initial
        = (Ok (Page "files.html"
                 [("items", JArr (spec_filter "folder" sample_entries));
                  ("public_key", JStr "k"); ("path", JStr "")] 200), s') ∧
        flashes s' = flashes initial.
Proof.
  apply (files_renders_filtered (net_answers (answer 200 (Ok sample_listing)))
           (browse_request "k" "folder") initial (answer 200 (Ok sample_listing))
           [("_embedded", JObj [("items", JArr sample_entries)])]
           [("items", JArr sample_entries)] sample_entries).
  - reflexivity.
  - reflexivity.
  - left. simpl. lia.
  - reflexivity.
  - reflexivity.
  - reflexivity.
  - repeat constructor.
Defined.

(** Whenever [files] answers, it either renders [files.html] and has
    flashed nothing, or redirects to the index and has flashed exactly one
    message, of category [danger]. *)
Theorem files_flashes_with_redirect (net : network) (req : request)
    (s s' : state) (resp : http_response) :
  files net req s = (Ok resp, s') →
  (∃ items, resp = Page "files.html"
                     [("items", items); ("public_key", arg_public_key req);
                      ("path", arg_browse_path req)] 200 ∧
            flashes s' = flashes s) ∨
  (resp = Redirect (url_for ep_index []) ∧
   ∃ message, flashes s' = (flashes s ++ [(message, "danger")])%list).
Proof.
  destruct (py_truthy (arg_public_key req)) eqn:Hkey.
  - destruct (files_with_key net req s Hkey) as (r & s1 & _ & _ & Hflash & _ & Hfiles).
    destruct r as [resources|e]; [|by rewrite Hfiles].
    destruct (py_truthy resources).
    + destruct (let? embedded := py_get resources "_embedded" (JObj []) in _)
        as [items|e].
      * rewrite Hfiles. intros [= <- <-]. left. by exists items.
      * destruct Hfiles as [-> _]. discriminate.
    + rewrite Hfiles. intros [= <- <-]. right. split; [reflexivity|].
      exists msg_no_data. simpl. by rewrite Hflash.
  - unfold files. unfold arg_public_key in Hkey. rewrite Hkey; simpl. run.
    intros [= <- <-]. right. split; [reflexivity|]. by exists msg_no_public_key.
Qed.

Lemma files_flashes_with_redirect_witness :
  (∃ items, Redirect (url_for ep_index [])
            = Page "files.html"
                [("items", items); ("public_key", JStr "k"); ("path", JStr "")] 200 ∧
            flashes (add_flash (msg_no_data, "danger")
                       (add_call (listing_call (browse_request "k" "")) initial))
            = flashes initial) ∨
  (Redirect (url_for ep_index []) = Redirect (url_for ep_index []) ∧
   ∃ message,
     flashes (add_flash (msg_no_data, "danger")
                (add_call (listing_call (browse_request "k" "")) initial))
     = (flashes initial ++ [(message, "danger")])%list).
Proof.
  apply (files_flashes_with_redirect (net_answers (answer 200 (Ok (JObj []))))
           (browse_request "k" "") initial).
  reflexivity.
Defined.

(** ** The download view on every network *)

(** [download] with its three arguments: the helper's outcome, then the
    fetch of the bytes. *)
Lemma download_with_args (net : network) (req : request) (s : state) :
  py_truthy (arg_public_key req) = true →
  py_truthy (arg_path req) = true →
  py_truthy (arg_name req) = true →
  ∃ r s1,
    get_download_href net (arg_public_key req) (arg_path req) s = (r, s1) ∧
    calls s1 = (calls s ++ [href_call req])%list ∧
    flashes s1 = flashes s ∧
    (∀ e, r = Raise e → is_RequestException e = false) ∧
    download net req s =
    match r with
    | Raise e => (Raise e, s1)
    | Ok href =>
        if py_truthy href then
          match fetch_outcome net href with
          | Ok file =>
              (Ok (SendFile (content file) (arg_name req) true),
               add_call (fetch_call href) s1)
          | Raise e =>
              if is_RequestException e then
                (Ok (back_to_files req),
                 add_flash (msg_download_failed ++ exn_str e, "danger")
                   (add_call (fetch_call href) s1))
              else (Raise e, add_call (fetch_call href) s1)
          end
        else (Ok (back_to_files req), add_flash (msg_no_href, "danger") s1)
    end.
Proof.
  intros Hkey Hpath Hname.
  destruct (get_download_href_effects net (arg_public_key req) (arg_path req) s)
    as (r & s1 & Hres & Hcalls & Hflash & _ & Hexn).
  exists r, s1. repeat split; try done.
  unfold arg_public_key, arg_path, arg_name, back_to_files in *.
  unfold download. simpl. rewrite Hkey, Hpath, Hname; simpl.
  unfold bind at 1. rewrite Hres. destruct r as [href|e]; [|reflexivity].
  destruct (py_truthy href); simpl; [|reflexivity].
  unfold fetch_outcome, fetch_call. run.
  destruct (net _) as [file|e]; simpl.
  - destruct (raise_for_status file) as [[]|e] eqn:Hraise; simpl; [reflexivity|].
    by rewrite (raise_for_status_request_exception file e Hraise).
  - by destruct (is_RequestException e).
Qed.

(** The helper on an accepted answer that is a JSON object: [href] as it
    is in the object. *)
Lemma download_href_found (net : network) (req : request) (s : state)
    (resp : response) (fields : list (string * json)) (href : json) (r : result json)
    (s1 : state) :
  net (href_call req) = Ok resp →
  status_code resp < 400 ∨ 600 ≤ status_code resp →
  json_body resp = Ok (JObj fields) →
  dict_get fields "href" = Some href →
  get_download_href net (arg_public_key req) (arg_path req) s = (r, s1) →
  r = Ok href.
Proof.
  intros Hnet Hstatus Hbody Hhref Hres.
  pose proof (get_download_href_decoded net _ _ s resp fields Hnet
                (raise_for_status_ok resp Hstatus) Hbody) as Hdec.
  simpl in Hdec. rewrite Hhref in Hdec. rewrite Hdec in Hres. by injection Hres as <- _.
Qed.



(** When the fetch of the bytes fails with a [RequestException], raised
    by [requests.get] or by [raise_for_status], [download] does not
    raise: it flashes the download-failed message followed by the text of
    the exception and redirects to the listing. *)
Theorem download_fetch_failure (net : network) (req : request) (s : state)
    (resp : response) (fields : list (string * json)) (href : json) (e : exn) :
  py_truthy (arg_public_key req) = true →
  py_truthy (arg_path req) = true →
  py_truthy (arg_name req) = true →
  net (href_call req) = Ok resp →
  status_code resp < 400 ∨ 600 ≤ status_code resp →
  json_body resp = Ok (JObj fields) →
  dict_get fields "href" = Some href →
  py_truthy href = true →
  net (fetch_call href) = Raise e ∨
  (∃ file, net (fetch_call href) = Ok file ∧ raise_for_status file = Raise e) →
  is_RequestException e = true →
  ∃ s', download net req s
        = (Ok (Redirect (url_for ep_files [("public_key", arg_public_key req)])), s') ∧
        flashes s' = (flashes s ++ [(String.append msg_download_failed (exn_str e), "danger")])%list ∧
        calls s' = (calls s ++ [href_call req; fetch_call href])%list.
Proof.
  intros Hkey Hpath Hname Hnet Hstatus Hbody Hhref Htruthy Hfetch He.
  destruct (download_with_args net req s Hkey Hpath Hname)
    as (r & s1 & Hres & Hcalls & Hflash & _ & Hdownload).
  rewrite (download_href_found net req s resp fields href r s1
             Hnet Hstatus Hbody Hhref Hres) in Hdownload.
  rewrite Htruthy in Hdownload.
  assert (Hout : fetch_outcome net href = Raise e).
  { unfold fetch_outcome. destruct Hfetch as [-> | (file & -> & Hraise)]; simpl.
    - reflexivity.
    - by rewrite Hraise. }
  rewrite Hout, He in Hdownload.
  eexists. split; [exact Hdownload|]. simpl. rewrite Hcalls, Hflash.
  by rewrite <- app_assoc.
Qed.

Lemma download_fetch_failure_witness :
  ∃ s', download
          (net_download (href_answer (JStr "https://dl/a"))
             (Raise (RequestException "Timeout" "timed out")))
          full_download_request initial
        = (Ok (Redirect (url_for ep_files [("public_key", JStr "k")])), s') ∧
        flashes s' = (flashes initial ++
                      [(String.append msg_download_failed "timed out", "danger")])%list ∧
        calls s' = (calls initial ++
                    [href_call full_download_request;
                     fetch_call (JStr "https://dl/a")])%list.
Proof.
  apply (download_fetch_failure
           (net_download (href_answer (JStr "https://dl/a"))
              (Raise (RequestException "Timeout" "timed out")))
           full_download_request initial
           (href_answer (JStr "https://dl/a"))
           [("href", JStr "https://dl/a")] (JStr "https://dl/a")
           (RequestException "Timeout" "timed out")).
  - reflexivity.
  - reflexivity.
  - reflexivity.
  - reflexivity.
  - left. simpl. lia.
  - reflexivity.
  - reflexivity.
  - reflexivity.
  - left. reflexivity.
  - reflexivity.
Defined.

(** When [requests.get] itself fails on the download-href call,
    [download] ends with [UnboundLocalError] for [response]: nothing is
    flashed and the bytes are not fetched. *)
Theorem download_href_transport_failure (net : network) (req : request)
    (s : state) (e : exn) :
  py_truthy (arg_public_key req) = true →
  py_truthy (arg_path req) = true →
  py_truthy (arg_name req) = true →
  net (href_call req) = Raise e →
  is_RequestException e = true →
  ∃ s', download net req s = (Raise (UnboundLocalError "response"), s') ∧
        flashes s' = flashes s ∧
        calls s' = (calls s ++ [href_call req])%list.
Proof.
  intros Hkey Hpath Hname Hnet He.
  pose proof (get_download_href_transport_failure net _ _ s e Hnet He) as Hfail.
  destruct (download_with_args net req s Hkey Hpath Hname)
    as (r & s1 & Hres & Hcalls & Hflash & _ & Hdownload).
  rewrite Hfail in Hres. injection Hres as <- <-.
  eexists. split; [exact Hdownload|]. by split.
Qed.

Lemma download_href_transport_failure_witness :
  ∃ s', download net_unreachable full_download_request initial
        = (Raise (UnboundLocalError "response"), s') ∧
        flashes s' = flashes initial ∧
        calls s' = (calls initial ++ [href_call full_download_request])%list.
Proof.
  apply (download_href_transport_failure net_unreachable full_download_request
           initial (RequestException "ConnectionError" "connection refused"));
    reflexivity.
Defined.



(** Any falsy [href] counts as none: an empty string, zero, [false], an
    empty list or object in the answer lead to the no-href message and
    the redirect, and the bytes are not fetched. *)
Theorem download_falsy_href (net : network) (req : request) (s : state)
    (resp : response) (fields : list (string * json)) (href : json) :
  py_truthy (arg_public_key req) = true →
  py_truthy (arg_path req) = true →
  py_truthy (arg_name req) = true →
  net (href_call req) = Ok resp →
  status_code resp < 400 ∨ 600 ≤ status_code resp →
  json_body resp = Ok (JObj fields) →
  dict_get fields "href" = Some href →
  py_truthy href = false →
  ∃ s', download net req s
        = (Ok (Redirect (url_for ep_files [("public_key", arg_public_key req)])), s') ∧
        flashes s' = (flashes s ++ [(msg_no_href, "danger")])%list ∧
        calls s' = (calls s ++ [href_call req])%list.
Proof.
  intros Hkey Hpath Hname Hnet Hstatus Hbody Hhref Hfalsy.
  destruct (download_with_args net req s Hkey Hpath Hname)
    as (r & s1 & Hres & Hcalls & Hflash & _ & Hdownload).
  rewrite (download_href_found net req s resp fields href r s1
             Hnet Hstatus Hbody Hhref Hres) in Hdownload.
  rewrite Hfalsy in Hdownload.
  eexists. split; [exact Hdownload|]. simpl. by rewrite Hflash.
Qed.

Lemma download_falsy_href_witness :
  ∃ s', download (net_answers (href_answer (JStr ""))) full_download_request initial
        = (Ok (Redirect (url_for ep_files [("public_key", JStr "k")])), s') ∧
        flashes s' = (flashes initial ++ [(msg_no_href, "danger")])%list ∧
        calls s' = (calls initial ++ [href_call full_download_request])%list.
Proof.
  apply (download_falsy_href (net_answers (href_answer (JStr "")))
           full_download_request initial (href_answer (JStr ""))
           [("href", JStr "")] (JStr "")).
  - reflexivity.
  - reflexivity.
  - reflexivity.
  - reflexivity.
  - left. simpl. lia.
  - reflexivity.
  - reflexivity.
  - reflexivity.
Defined.

(** [download] makes at most two calls, on every network and however it
    ends: none, or the download-href call alone, or that call followed by
    the fetch of a truthy [href], without parameters. *)
Theorem download_at_most_two_calls (net : network) (req : request) (s : state) :
  calls (snd (download net req s)) = calls s ∨
  calls (snd (download net req s)) = (calls s ++ [href_call req])%list ∨
  ∃ href, py_truthy href = true ∧
          calls (snd (download net req s))
          = (calls s ++ [href_call req;
                         {| req_url := href; req_params := [] |}])%list.
Proof.
  destruct (forallb py_truthy [arg_public_key req; arg_path req; arg_name req])
    eqn:Hall.
  - simpl in Hall. rewrite andb_true_r in Hall.
    apply andb_true_iff in Hall as [Hkey [Hpath Hname]%andb_true_iff].
    destruct (download_with_args net req s Hkey Hpath Hname)
      as (r & s1 & _ & Hcalls & _ & _ & ->).
    destruct r as [href|e]; [|right; left; exact Hcalls].
    destruct (py_truthy href) eqn:Htruthy; [|right; left; exact Hcalls].
    right. right. exists href. split; [exact Htruthy|].
    assert (Hboth : calls (add_call (fetch_call href) s1)
                    = (calls s ++ [href_call req; fetch_call href])%list)
      by (simpl; rewrite Hcalls; by rewrite <- app_assoc).
    destruct (fetch_outcome net href) as [file|e]; [exact Hboth|].
    by destruct (is_RequestException e).
  - left. unfold download. unfold arg_public_key, arg_path, arg_name in Hall.
    by rewrite Hall.
Qed.

(** No [RequestException] ever leaves [download]. *)
Theorem download_no_request_exception (net : network) (req : request)
    (s : state) (e : exn) :
  fst (download net req s) = Raise e → is_RequestException e = false.
Proof.
  destruct (forallb py_truthy [arg_public_key req; arg_path req; arg_name req])
    eqn:Hall.
  - simpl in Hall. rewrite andb_true_r in Hall.
    apply andb_true_iff in Hall as [Hkey [Hpath Hname]%andb_true_iff].
    destruct (download_with_args net req s Hkey Hpath Hname)
      as (r & s1 & _ & _ & _ & Hexn & ->).
    destruct r as [href|e']; [|intros [= <-]; by apply Hexn].
    destruct (py_truthy href); [|discriminate].
    destruct (fetch_outcome net href) as [file|e']; [discriminate|].
    destruct (is_RequestException e') eqn:He'; [discriminate|].
    by intros [= <-].
  - unfold download. unfold arg_public_key, arg_path, arg_name in Hall.
    by rewrite Hall.
Qed.

Lemma download_no_request_exception_witness :
  is_RequestException (UnboundLocalError "response") = false.
Proof.
  apply (download_no_request_exception net_unreachable full_download_request initial).
  reflexivity.
Defined.

(** Whenever [download] answers, it either sends a file and has flashed
    nothing, or redirects to the listing of the same public key and has
    flashed exactly one message, of category [danger]. *)
Theorem download_flashes_with_redirect (net : network) (req : request)
    (s s' : state) (resp : http_response) :
  download net req s = (Ok resp, s') →
  (∃ bytes, resp = SendFile bytes (arg_name req) true ∧ flashes s' = flashes s) ∨
  (resp = Redirect (url_for ep_files [("public_key", arg_public_key req)]) ∧
   ∃ message, flashes s' = (flashes s ++ [(message, "danger")])%list).
Proof.
  destruct (forallb py_truthy [arg_public_key req; arg_path req; arg_name req])
    eqn:Hall.
  - simpl in Hall. rewrite andb_true_r in Hall.
    apply andb_true_iff in Hall as [Hkey [Hpath Hname]%andb_true_iff].
    destruct (download_with_args net req s Hkey Hpath Hname)
      as (r & s1 & _ & _ & Hflash & _ & ->).
    destruct r as [href|e]; [|discriminate].
    destruct (py_truthy href).
    + destruct (fetch_outcome net href) as [file|e].
      * intros [= <- <-]. left. by exists (content file).
      * destruct (is_RequestException e); [|discriminate].
        intros [= <- <-]. right. split; [reflexivity|].
        eexists. simpl. by rewrite Hflash.
    + intros [= <- <-]. right. split; [reflexivity|].
      eexists. simpl. by rewrite Hflash.
  - unfold download. unfold arg_public_key, arg_path, arg_name in *.
    rewrite Hall; simpl. run. intros [= <- <-]. right. split; [reflexivity|].
    by eexists.
Qed.

Lemma download_flashes_with_redirect_witness :
  (∃ bytes, Redirect (url_for ep_files [("public_key", JStr "k")])
            = SendFile bytes (JStr "a.pdf") true ∧
            flashes (add_flash (msg_no_href, "danger")
                       (add_line (LogHrefMissing (JObj [("href", JStr "")]))
                          (add_call (href_call full_download_request) initial)))
            = flashes initial) ∨
  (Redirect (url_for ep_files [("public_key", JStr "k")])
   = Redirect (url_for ep_files [("public_key", JStr "k")]) ∧
   ∃ message,
     flashes (add_flash (msg_no_href, "danger")
                (add_line (LogHrefMissing (JObj [("href", JStr "")]))
                   (add_call (href_call full_download_request) initial)))
     = (flashes initial ++ [(message, "danger")])%list).
Proof.
  apply (download_flashes_with_redirect (net_answers (href_answer (JStr "")))
           full_download_request initial).
  reflexivity.
Defined.
